(** * CGT AI chat backend: a shallow embedding of [backend/app.py] and
    [backend/models.py], and the properties of its routes and of its
    provider-fallback chain.

    Layout:
    - [Py]: the Python values the handlers manipulate (JSON data, strings as
      sequences of code points), the built-in operations the source applies to
      them, and the exceptions those operations raise;
    - [Chat], [Message]: the two mapped classes of [models.py];
    - [World]: everything the source reaches outside the process (environment
      variables, the two providers, the clock, the database driver);
    - [App]: the functions of [app.py], in a state-and-exception monad;
    - the theorems. *)

From Stdlib Require Import ZArith NArith List String Ascii Bool Lia.
From Stdlib Require Import DecimalString Sorted Permutation.
From Stdlib Require Import Floats.SpecFloat.
Import ListNotations.

Set Implicit Arguments.
Set Warnings "-register-all".

(* ================================================================== *)
(** * Python values *)
(* ================================================================== *)

Module Py.

(** A Python [str] is a sequence of Unicode code points. *)
Definition str := list N.

(** Source literals are ASCII: one code point per character. *)
Definition lit (s : string) : str := map N_of_ascii (list_ascii_of_string s).

Definition nl : str := [10%N].

Fixpoint str_eqb (a b : str) : bool :=
  match a, b with
  | [], [] => true
  | x :: a', y :: b' => N.eqb x y && str_eqb a' b'
  | _, _ => false
  end.

(** [prefixb p s]: [s.startswith(p)]. *)
Fixpoint prefixb (p s : str) : bool :=
  match p, s with
  | [], _ => true
  | x :: p', y :: s' => N.eqb x y && prefixb p' s'
  | _ :: _, [] => false
  end.

(** [infixb p s]: [p in s] on two strings, the substring test. *)
Fixpoint infixb (p s : str) : bool :=
  prefixb p s ||
  match s with
  | [] => false
  | _ :: s' => infixb p s'
  end.

(** [str.isspace] on one code point: the code points CPython classifies as
    whitespace, which are the ones [str.strip()] removes. *)
Definition isspace (c : N) : bool :=
  ((9 <=? c) && (c <=? 13) || (28 <=? c) && (c <=? 32) ||
   (c =? 133) || (c =? 160) || (c =? 5760) ||
   (8192 <=? c) && (c <=? 8202) ||
   (c =? 8232) || (c =? 8233) || (c =? 8239) || (c =? 8287) ||
   (c =? 12288))%N.

Fixpoint lstrip (s : str) : str :=
  match s with
  | c :: s' => if isspace c then lstrip s' else s
  | [] => []
  end.

Definition rstrip (s : str) : str := rev (lstrip (rev s)).

(** [s.strip()] *)
Definition strip (s : str) : str := rstrip (lstrip s).

(** Values of the types [json.loads] produces ([None], [bool], [int],
    [float], [str], [list], [dict] with string keys).  A [dict] is kept as its
    item list; a key is looked up at its first occurrence. *)
Inductive value : Type :=
| VNone
| VBool (b : bool)
| VInt (z : Z)
| VFloat (f : spec_float)
| VStr (s : str)
| VList (l : list value)
| VDict (items : list (str * value)).

Fixpoint lookup (k : str) (items : list (str * value)) : option value :=
  match items with
  | [] => None
  | (k', v) :: rest => if str_eqb k k' then Some v else lookup k rest
  end.

(** Truth value of an object, as [if x], [not x] and [x or y] test it. *)
Definition truthy (v : value) : bool :=
  match v with
  | VNone => false
  | VBool b => b
  | VInt z => negb (z =? 0)%Z
  | VFloat (S754_zero _) => false
  | VFloat _ => true
  | VStr s => negb (match s with [] => true | _ => false end)
  | VList l => negb (match l with [] => true | _ => false end)
  | VDict d => negb (match d with [] => true | _ => false end)
  end.

(** [a or b] *)
Definition or_ (a b : value) : value := if truthy a then a else b.

Definition is_str (v : value) : bool :=
  match v with VStr _ => true | _ => false end.

Definition is_list (v : value) : bool :=
  match v with VList _ => true | _ => false end.

(** Exceptions (instances of [Exception]).  The first group is raised by the
    interpreter when a built-in operation meets a value of the wrong shape;
    [StatusError] is the [Exception] the source raises itself on a non-200
    status; [OverflowError] is the driver refusing an integer that does not
    fit SQLite's signed 64-bit INTEGER;
    [IntegrityError] is the store refusing NULL in a NOT NULL column;
    [LibraryError] is anything raised inside Flask, [requests], the provider
    SDK or the database driver, with its [str(e)]. *)
Inductive exn : Type :=
| TypeError
| KeyError
| IndexError
| AttributeError
| OverflowError
| StatusError (status_code : Z)
| IntegrityError
| LibraryError (text : str).

Inductive result (A : Type) : Type :=
| Ok (a : A)
| Raise (e : exn).
Arguments Ok {A} a.
Arguments Raise {A} e.

Definition raises {A} (r : result A) : Prop := exists e, r = Raise e.

(** [k in v] for a string [k]: key membership in a dict, element membership
    in a list, substring test in a string; other types are not containers. *)
Definition contains (k : str) (v : value) : result bool :=
  match v with
  | VDict d => Ok (match lookup k d with Some _ => true | None => false end)
  | VList l =>
      Ok (existsb (fun x => match x with VStr s => str_eqb k s | _ => false end) l)
  | VStr s => Ok (infixb k s)
  | _ => Raise TypeError
  end.

(** [v[k]] for a string [k]. *)
Definition getitem (v : value) (k : str) : result value :=
  match v with
  | VDict d => match lookup k d with Some x => Ok x | None => Raise KeyError end
  | _ => Raise TypeError
  end.

(** [v[0]] *)
Definition getitem0 (v : value) : result value :=
  match v with
  | VList (x :: _) => Ok x
  | VList [] => Raise IndexError
  | VStr (c :: _) => Ok (VStr [c])
  | VStr [] => Raise IndexError
  | VDict _ => Raise KeyError
  | _ => Raise TypeError
  end.

(** [len(v)] *)
Definition len (v : value) : result nat :=
  match v with
  | VStr s => Ok (List.length s)
  | VList l => Ok (List.length l)
  | VDict d => Ok (List.length d)
  | _ => Raise TypeError
  end.

(** [v.strip()]: only [str] has the method among these values. *)
Definition strip_method (v : value) : result str :=
  match v with
  | VStr s => Ok (strip s)
  | _ => Raise AttributeError
  end.

(** [v[:n]]: strings and lists are sliceable; a dict rejects the slice as a
    key, the other values are not subscriptable. *)
Definition slice_to (n : nat) (v : value) : result value :=
  match v with
  | VStr s => Ok (VStr (firstn n s))
  | VList l => Ok (VList (firstn n l))
  | _ => Raise TypeError
  end.

(** [v.get(k)] *)
Definition get (v : value) (k : str) : result value :=
  match v with
  | VDict d => Ok (match lookup k d with Some x => x | None => VNone end)
  | _ => Raise AttributeError
  end.

(** Decimal digits of an [int], as [str(n)] and [{n}] in an f-string. *)
Definition str_of_int (z : Z) : str := lit (NilZero.string_of_int (Z.to_int z)).

End Py.

(* ================================================================== *)
(** * Timestamps and ordered queries *)
(* ================================================================== *)

Module Datetime.

(** A naive [datetime]: its seven fields. *)
Record t := mk {
  year : N; month : N; day : N;
  hour : N; minute : N; second : N; microsecond : N
}.

Definition fields (d : t) : list N :=
  [year d; month d; day d; hour d; minute d; second d; microsecond d].

(** Lexicographic order on field lists: datetimes compare field by field. *)
Fixpoint lex_leb (a b : list N) : bool :=
  match a, b with
  | [], _ => true
  | _ :: _, [] => false
  | x :: a', y :: b' =>
      if (x <? y)%N then true
      else if (x =? y)%N then lex_leb a' b' else false
  end.

Definition leb (a b : t) : bool := lex_leb (fields a) (fields b).

Definition digits (n : N) : Py.str := Py.lit (NilZero.string_of_uint (N.to_uint n)).

(** Left-pad with ['0'] to a width, as the [%02d] family does. *)
Definition zfill (width : nat) (s : Py.str) : Py.str :=
  repeat 48%N (width - List.length s) ++ s.

(** [d.isoformat()]: [YYYY-MM-DDTHH:MM:SS], with [.ffffff] when the
    microsecond field is not zero. *)
Definition isoformat (d : t) : Py.str :=
  zfill 4 (digits (year d)) ++ Py.lit "-" ++ zfill 2 (digits (month d)) ++
  Py.lit "-" ++ zfill 2 (digits (day d)) ++ Py.lit "T" ++
  zfill 2 (digits (hour d)) ++ Py.lit ":" ++ zfill 2 (digits (minute d)) ++
  Py.lit ":" ++ zfill 2 (digits (second d)) ++
  (if (microsecond d =? 0)%N then []
   else Py.lit "." ++ zfill 6 (digits (microsecond d))).

(** Order of a nullable timestamp column under [ORDER BY ... ASC] in SQLite,
    the database the source configures by default: NULL sorts first. *)
Definition opt_leb (a b : option t) : bool :=
  match a, b with
  | None, _ => true
  | Some _, None => false
  | Some x, Some y => leb x y
  end.

End Datetime.

(** [ORDER BY]: a stable sort of the rows under a comparison of their keys. *)
Section OrderBy.
Variable A : Type.
Variable le : A -> A -> bool.

Fixpoint insert_by (x : A) (l : list A) : list A :=
  match l with
  | [] => [x]
  | y :: l' => if le x y then x :: l else y :: insert_by x l'
  end.

Definition order_by (l : list A) : list A := fold_right insert_by [] l.
End OrderBy.

(* ================================================================== *)
(** * models.py *)
(* ================================================================== *)

Module Chat.

Record t := mk {
  id : Z;
  title : option Py.str;
  created_at : option Datetime.t
}.

Definition to_dict (self : t) : Py.value :=
  Py.VDict
    [ (Py.lit "id", Py.VInt (id self));
      (Py.lit "title",
        match title self with Some s => Py.VStr s | None => Py.VNone end);
      (Py.lit "created_at",
        match created_at self with
        | Some d => Py.VStr (Datetime.isoformat d)
        | None => Py.VNone
        end) ].

End Chat.

Module Message.

Record t := mk {
  id : Z;
  chat_id : Z;
  role : Py.str;
  content : Py.str;
  created_at : option Datetime.t
}.

Definition to_dict (self : t) : Py.value :=
  Py.VDict
    [ (Py.lit "id", Py.VInt (id self));
      (Py.lit "role", Py.VStr (role self));
      (Py.lit "content", Py.VStr (content self));
      (Py.lit "created_at",
        match created_at self with
        | Some d => Py.VStr (Datetime.isoformat d)
        | None => Py.VNone
        end) ].

End Message.

(** The two tables. *)
Record store := mkStore {
  chats : list Chat.t;
  messages : list Message.t
}.

(** The range of an INTEGER column of SQLite, the database the source
    configures by default: a signed 64-bit value. *)
Definition INT64_MIN : Z := - 2 ^ 63.
Definition INT64_MAX : Z := 2 ^ 63 - 1.

Definition in_int64 (z : Z) : bool :=
  (INT64_MIN <=? z)%Z && (z <=? INT64_MAX)%Z.

(** The table still has its largest row id free: it is empty, or the largest
    id in use is below [INT64_MAX]. *)
Definition below_largest (ids : list Z) : bool :=
  match ids with
  | [] => true
  | x :: xs => (fold_left Z.max xs x <? INT64_MAX)%Z
  end.

(** 1 in an empty table, otherwise one more than the largest id in use. *)
Definition after_largest (ids : list Z) : Z :=
  match ids with
  | [] => 1
  | x :: xs => fold_left Z.max xs x + 1
  end.

(** The stored chat with the key, if any. *)
Definition find_chat (key : Z) (s : store) : option Chat.t :=
  find (fun c => (Chat.id c =? key)%Z) (chats s).

(** [Chat.query.get(key)] for an integer key: the row with that id, [None]
    when no row has it, and [OverflowError] from the driver when the key does
    not fit the 64-bit column (no stored row has such an id). *)
Definition query_get (key : Z) (s : store) : Py.result (option Chat.t) :=
  match find_chat key s with
  | Some c => Py.Ok (Some c)
  | None => if in_int64 key then Py.Ok None else Py.Raise Py.OverflowError
  end.

(** [chat.messages]: the rows of [messages] whose foreign key is the chat. *)
Definition messages_of (c : Chat.t) (s : store) : list Message.t :=
  filter (fun m => (Message.chat_id m =? Chat.id c)%Z) (messages s).

(* ================================================================== *)
(** * The world outside the process *)
(* ================================================================== *)

(** What [requests.post] sends and receives. *)
Module Http.

Record request := mkRequest {
  url : Py.str;
  headers : list (Py.str * Py.str);
  json : Py.value;
  timeout : Z
}.

Record response := mkResponse {
  status_code : Z;
  text : Py.str;
  (** the outcome of [response.json()] *)
  json_body : Py.result Py.value
}.

End Http.

(** What the [google.genai] client returns: objects read by attribute. *)
Module Genai.

Inductive attr (A : Type) : Type :=
| Missing
| Fails (e : Py.exn)
| Has (a : A).
Arguments Missing {A}.
Arguments Fails {A} e.
Arguments Has {A} a.

Record candidate := mkCandidate { output : attr Py.value }.

Record response := mkResponse {
  text : attr Py.value;
  (** [Has None] is the attribute holding [None] *)
  candidates : attr (option (list candidate))
}.

End Genai.

(** One behaviour of everything external.  The handlers are functions of it:
    a property proved for every [world] holds whatever the environment, the
    providers, the clock and the database driver do. *)
Record world := mkWorld {
  (** [os.getenv(name)] *)
  getenv : string -> option Py.str;
  (** whether [from google import genai] succeeded at import time *)
  HAS_GENAI : bool;
  (** [requests.post(...)]: a response, or the exception it raises
      (timeout, connection error, ...) *)
  requests_post : Http.request -> Py.result Http.response;
  (** [genai.Client(api_key=k)]: [None] when the constructor returns *)
  genai_Client : Py.str -> option Py.exn;
  (** [client.models.generate_content(model=m, contents=c)] for the client
      built from key [k] *)
  generate_content : Py.str -> Py.str -> Py.str -> Py.result Genai.response;
  (** [datetime.utcnow()] at the n-th reading *)
  utcnow : nat -> Datetime.t;
  (** whether the n-th [db.session.commit()] fails in the store *)
  commit_error : nat -> option Py.exn;
  (** the row id SQLite draws at random for an insert into a table whose
      largest id [INT64_MAX] is in use, given the ids in use; or the error of
      the insert when it finds none *)
  pick_rowid : list Z -> Py.result Z;
  (** how the driver binds a value that is neither [str] nor [None] to a
      text column, and one that is not an [int] to the integer key *)
  adapt_text : Py.value -> Py.result (option Py.str);
  adapt_int : Py.value -> Py.result (option Z);
  (** [str(v)] of a value that is not a [str] *)
  str_of : Py.value -> Py.str;
  (** [str(e)] of an exception raised by the interpreter or the store *)
  error_text : Py.exn -> Py.str
}.

(** Calls and log records, in the order the process issues them. *)
Inductive event : Type :=
| Post (rq : Http.request)
| ClientNew (api_key : Py.str)
| GenerateContent (api_key model contents : Py.str)
| LogWarning (fmt : string) (arg : Py.str)
| LogException (msg : string) (e : Py.exn).

Definition is_secondary_call (ev : event) : bool :=
  match ev with
  | ClientNew _ | GenerateContent _ _ _ => true
  | _ => false
  end.

(* ================================================================== *)
(** * State and exceptions *)
(* ================================================================== *)

Record state := mkState {
  db : store;
  trace : list event;
  commits : nat;
  ticks : nat
}.

Definition M (A : Type) : Type := state -> state * Py.result A.

Class Monad (m : Type -> Type) : Type := {
  ret : forall {A}, A -> m A;
  bind : forall {A B}, m A -> (A -> m B) -> m B
}.

#[export] Instance Monad_result : Monad Py.result := {
  ret := fun _ a => Py.Ok a;
  bind := fun _ _ c k =>
    match c with
    | Py.Ok a => k a
    | Py.Raise e => Py.Raise e
    end
}.

#[export] Instance Monad_M : Monad M := {
  ret := fun _ a s => (s, Py.Ok a);
  bind := fun _ _ c k s =>
    match c s with
    | (s', Py.Ok a) => k a s'
    | (s', Py.Raise e) => (s', Py.Raise e)
    end
}.

Declare Scope monad_scope.
Notation "x <- c ;; k" := (bind c (fun x => k))
  (at level 61, c at next level, right associativity) : monad_scope.
Notation "c ;; k" := (bind c (fun _ => k))
  (at level 61, right associativity) : monad_scope.
Open Scope monad_scope.

(** An operation without side effect, inside a handler. *)
Definition lift {A} (r : Py.result A) : M A := fun s => (s, r).

Definition raise {A} (e : Py.exn) : M A := fun s => (s, Py.Raise e).

(** [try: body / except Exception as e: handler e]: what the body did to the
    state before it raised stays done. *)
Definition try_except {A} (body : M A) (handler : Py.exn -> M A) : M A :=
  fun s =>
    match body s with
    | (s', Py.Ok a) => (s', Py.Ok a)
    | (s', Py.Raise e) => handler e s'
    end.

Definition emit (ev : event) : M unit :=
  fun s => (mkState (db s) (trace s ++ [ev]) (commits s) (ticks s), Py.Ok tt).

(* ================================================================== *)
(** * app.py *)
(* ================================================================== *)

Definition SYSTEM_INSTRUCTIONS : Py.str :=
  Py.lit "You are a friendly AI assistant like ChatGPT." ++ Py.nl ++
  Py.lit "Rules:" ++ Py.nl ++
  Py.lit "- Give clean, well-spaced answers" ++ Py.nl ++
  Py.lit "- Use bullet points or tables when useful" ++ Py.nl ++
  Py.lit "- Do NOT use # symbols" ++ Py.nl ++
  Py.lit "- Keep answers clear and readable" ++ Py.nl ++
  Py.lit "- Be concise and helpful" ++ Py.nl.

(** The literal text of the f-string between its two fields. *)
Definition PROMPT_SEPARATOR : Py.str :=
  Py.nl ++ Py.nl ++ Py.lit "User:" ++ Py.nl.

Definition build_prompt (user_message : Py.str) : Py.str :=
  SYSTEM_INSTRUCTIONS ++ PROMPT_SEPARATOR ++ user_message.

Definition UNAVAILABLE : Py.str :=
  Py.lit "All AI providers are currently unavailable. Please try again later.".

(** An HTTP response of the application: [jsonify(body), status]. *)
Record response := mkResponse {
  body : Py.value;
  status : Z
}.

Definition jsonify (v : Py.value) : response := mkResponse v 200.

(** The part of a POST request the handler reads: the outcome of
    [request.get_json()]. *)
Record request := mkRequest {
  get_json : Py.result Py.value
}.

(** [response.json()] has been parsed; lines 122-123 of [app.py]:
    [Ok (Some s)] is [return s], [Ok None] leaves the [if] without
    returning. *)
Definition first_choice (data : Py.value) : Py.result (option Py.str) :=
  has <- Py.contains (Py.lit "choices") data ;;
  if has : bool then
    choices <- Py.getitem data (Py.lit "choices") ;;
    n <- Py.len choices ;;
    if (0 <? n)%nat then
      c <- Py.getitem0 choices ;;
      m <- Py.getitem c (Py.lit "message") ;;
      t <- Py.getitem m (Py.lit "content") ;;
      s <- Py.strip_method t ;;
      ret (Some s)
    else ret None
  else ret None.

(** [getattr(resp, "text", None)]: the default also covers an
    [AttributeError] raised while the attribute is computed. *)
Definition getattr_text (resp : Genai.response) : Py.result Py.value :=
  match Genai.text resp with
  | Genai.Missing => Py.Ok Py.VNone
  | Genai.Fails Py.AttributeError => Py.Ok Py.VNone
  | Genai.Fails e => Py.Raise e
  | Genai.Has v => Py.Ok v
  end.

(** [resp.candidates[0].output] *)
Definition candidates0_output (resp : Genai.response) : Py.result Py.value :=
  match Genai.candidates resp with
  | Genai.Missing => Py.Raise Py.AttributeError
  | Genai.Fails e => Py.Raise e
  | Genai.Has None => Py.Raise Py.TypeError
  | Genai.Has (Some []) => Py.Raise Py.IndexError
  | Genai.Has (Some (c :: _)) =>
      match Genai.output c with
      | Genai.Missing => Py.Raise Py.AttributeError
      | Genai.Fails e => Py.Raise e
      | Genai.Has v => Py.Ok v
      end
  end.

(** Lines 141-145 of [app.py]. *)
Definition gemini_text (resp : Genai.response) : Py.result Py.str :=
  text <- getattr_text resp ;;
  text <- (if negb (Py.truthy text) then candidates0_output resp
           else ret text) ;;
  Py.strip_method text.

Section App.

Variable w : world.

(** [os.getenv(name)] is truthy: the variable is set and not empty. *)
Definition env_set (name : string) : bool :=
  match getenv w name with
  | Some (_ :: _) => true
  | _ => false
  end.

(** [os.getenv(name)] where the source formats it into a string. *)
Definition env_text (name : string) : Py.str :=
  match getenv w name with
  | Some v => v
  | None => Py.lit "None"
  end.

(** [os.getenv(name, default)] *)
Definition env_default (name : string) (default : Py.str) : Py.str :=
  match getenv w name with
  | Some v => v
  | None => default
  end.

(** [str(e)] *)
Definition str_exn (e : Py.exn) : Py.str :=
  match e with
  | Py.StatusError c => Py.lit "OpenRouter returned status " ++ Py.str_of_int c
  | Py.LibraryError t => t
  | _ => error_text w e
  end.

(** What an f-string or [%s] makes of a value. *)
Definition format (v : Py.value) : Py.str :=
  match v with
  | Py.VStr s => s
  | _ => str_of w v
  end.

Definition warning (fmt : string) (arg : Py.str) : M unit :=
  emit (LogWarning fmt arg).

(** The request of lines 94-118. *)
Definition openrouter_request (prompt : Py.str) : Http.request :=
  Http.mkRequest
    (Py.lit "https://openrouter.ai/api/v1/chat/completions")
    [ (Py.lit "Authorization", Py.lit "Bearer " ++ env_text "OPENROUTER_API_KEY");
      (Py.lit "Content-Type", Py.lit "application/json");
      (Py.lit "HTTP-Referer", env_default "SITE_URL" (Py.lit "http://localhost:5000"));
      (Py.lit "X-Title", env_default "SITE_NAME" (Py.lit "CGT AI Chat App")) ]
    (Py.VDict
      [ (Py.lit "model", Py.VStr (Py.lit "tngtech/deepseek-r1t2-chimera:free"));
        (Py.lit "messages",
          Py.VList [ Py.VDict [ (Py.lit "role", Py.VStr (Py.lit "user"));
                                (Py.lit "content", Py.VStr prompt) ] ]);
        (Py.lit "max_tokens", Py.VInt 512);
        (* 0.2 as a binary64 *)
        (Py.lit "temperature", Py.VFloat (S754_finite false 7205759403792794 (-55))) ])
    30.

Definition post (rq : Http.request) : M Http.response :=
  emit (Post rq) ;; lift (requests_post w rq).

Definition GEMINI_MODEL : Py.str := Py.lit "gemini-3-flash-preview".

Definition new_client (api_key : Py.str) : M Py.str :=
  emit (ClientNew api_key) ;;
  match genai_Client w api_key with
  | Some e => raise e
  | None => ret api_key
  end.

Definition call_generate_content (client model contents : Py.str)
  : M Genai.response :=
  emit (GenerateContent client model contents) ;;
  lift (generate_content w client model contents).

(** Lines 92-129: the OpenRouter step.  [Some s] is [return s]; [None] is
    control reaching the Gemini step. *)
Definition try_openrouter (prompt : Py.str) : M (option Py.str) :=
  if env_set "OPENROUTER_API_KEY" then
    try_except
      (response <- post (openrouter_request prompt) ;;
       if (Http.status_code response =? 200)%Z then
         data <- lift (Http.json_body response) ;;
         lift (first_choice data)
       else
         warning "OpenRouter API error: %s" (Http.text response) ;;
         raise (Py.StatusError (Http.status_code response)))
      (fun e =>
         warning "OpenRouter failed, falling back to Gemini: %s" (str_exn e) ;;
         ret None)
  else ret None.

(** Lines 132-148: the Gemini step. *)
Definition try_gemini (prompt : Py.str) : M (option Py.str) :=
  if HAS_GENAI w && env_set "GEMINI_API_KEY" then
    try_except
      (client <- new_client (env_text "GEMINI_API_KEY") ;;
       resp <- call_generate_content client GEMINI_MODEL prompt ;;
       s <- lift (gemini_text resp) ;;
       ret (Some s))
      (fun e =>
         warning "Gemini provider failed: %s" (str_exn e) ;;
         ret None)
  else ret None.

Definition generate_response (user_message : Py.str) : M Py.str :=
  let prompt := build_prompt user_message in
  r <- try_openrouter prompt ;;
  match r with
  | Some s => ret s
  | None =>
      r <- try_gemini prompt ;;
      match r with
      | Some s => ret s
      | None => ret UNAVAILABLE
      end
  end.

End App.

(** ** The session and the routes *)

Section Routes.

Variable w : world.

(** How a value assigned to a text column reaches the table. *)
Definition bind_text (v : Py.value) : Py.result (option Py.str) :=
  match v with
  | Py.VStr s => Py.Ok (Some s)
  | Py.VNone => Py.Ok None
  | _ => adapt_text w v
  end.

(** [db.session.commit()]: the store accepts the pending row or raises. *)
Definition commit : M unit :=
  fun s =>
    let s' := mkState (db s) (trace s) (S (commits s)) (ticks s) in
    match commit_error w (commits s) with
    | Some e => (s', Py.Raise e)
    | None => (s', Py.Ok tt)
    end.

(** The column default [datetime.utcnow]. *)
Definition now : M Datetime.t :=
  fun s =>
    (mkState (db s) (trace s) (commits s) (S (ticks s)),
     Py.Ok (utcnow w (ticks s))).

Definition insert_chat (c : Chat.t) : M unit :=
  fun s =>
    (mkState (mkStore (chats (db s) ++ [c]) (messages (db s)))
             (trace s) (commits s) (ticks s), Py.Ok tt).

Definition insert_message (m : Message.t) : M unit :=
  fun s =>
    (mkState (mkStore (chats (db s)) (messages (db s) ++ [m]))
             (trace s) (commits s) (ticks s), Py.Ok tt).

(** Row id of an insert into a table with an integer primary key, as SQLite
    allocates it: 1 in an empty table, otherwise one more than the largest
    id in use; once [INT64_MAX] is in use, a positive id not in use drawn at
    random, or the failure of the insert. *)
Definition next_id (ids : list Z) : Py.result Z :=
  if below_largest ids then Py.Ok (after_largest ids)
  else
    match pick_rowid w ids with
    | Py.Ok i =>
        if (0 <? i)%Z && (i <=? INT64_MAX)%Z && negb (existsb (Z.eqb i) ids)
        then Py.Ok i
        else Py.Raise Py.IntegrityError
    | Py.Raise e => Py.Raise e
    end.

Definition fresh_chat_id : M Z :=
  fun s => (s, next_id (map Chat.id (chats (db s)))).

Definition fresh_message_id : M Z :=
  fun s => (s, next_id (map Message.id (messages (db s)))).

(** [chat = Chat(title=title); db.session.add(chat); db.session.commit()];
    the result is the row, from which [chat.id] is read afterwards. *)
Definition add_commit_chat (title : Py.value) : M Chat.t :=
  t <- lift (bind_text title) ;;
  commit ;;
  d <- now ;;
  i <- fresh_chat_id ;;
  let c := Chat.mk i t (Some d) in
  insert_chat c ;;
  ret c.

(** [db.session.add(Message(chat_id=.., role=.., content=..));
    db.session.commit()]; [content] is NOT NULL. *)
Definition add_commit_message (chat_id : Z) (role : Py.str) (content : Py.value)
  : M unit :=
  t <- lift (bind_text content) ;;
  match t with
  | None => raise Py.IntegrityError
  | Some text =>
      commit ;;
      d <- now ;;
      i <- fresh_message_id ;;
      insert_message (Message.mk i chat_id role text (Some d))
  end.

(** Which row [Chat.query.get(key)] finds for the value the request carries:
    an [int] is looked up as it is; for another value the driver decides
    what integer, if any, it stands for. *)
Definition resolve (key : Py.value) (st : store) : Py.result (option Chat.t) :=
  match key with
  | Py.VInt z => query_get z st
  | _ =>
      k <- adapt_int w key ;;
      match k with
      | Some z => query_get z st
      | None => ret None
      end
  end.

Definition Chat_query_get (key : Py.value) : M (option Chat.t) :=
  fun s => (s, resolve key (db s)).

Definition health : response :=
  jsonify (Py.VDict [ (Py.lit "status", Py.VStr (Py.lit "ok")) ]).

(** GET /chats *)
Definition list_chats (s : store) : response :=
  let chats :=
    order_by (fun a b => Datetime.opt_leb (Chat.created_at b) (Chat.created_at a))
             (chats s) in
  jsonify (Py.VList (map Chat.to_dict chats)).

(** GET /chats/<int:chat_id>.  The view has no handler of its own: what the
    lookup raises leaves the function ([Raise]) and the framework answers
    500. *)
Definition get_chat (chat_id : Z) (s : store) : Py.result response :=
  chat <- query_get chat_id s ;;
  match chat with
  | None =>
      ret (mkResponse
             (Py.VDict [ (Py.lit "error", Py.VStr (Py.lit "Chat not found")) ]) 404)
  | Some chat =>
      let messages :=
        map Message.to_dict
          (order_by (fun a b => Datetime.opt_leb (Message.created_at a)
                                                 (Message.created_at b))
                    (messages_of chat s)) in
      ret (jsonify (Py.VDict [ (Py.lit "messages", Py.VList messages) ]))
  end.

(** POST /chat *)
Definition chat (rq : request) : M response :=
  try_except
    (d <- lift (get_json rq) ;;
     let data := Py.or_ d (Py.VDict []) in
     has <- lift (Py.contains (Py.lit "message") data) ;;
     if negb has then
       ret (mkResponse
              (Py.VDict [ (Py.lit "error", Py.VStr (Py.lit "Missing 'message'")) ])
              400)
     else
       user_message <- lift (Py.getitem data (Py.lit "message")) ;;
       chat_id <- lift (Py.get data (Py.lit "chat_id")) ;;
       found <- (if Py.truthy chat_id then Chat_query_get chat_id else ret None) ;;
       chat <- match found with
               | Some c => ret c
               | None =>
                   title <- lift (Py.slice_to 200 user_message) ;;
                   add_commit_chat title
               end ;;
       add_commit_message (Chat.id chat) (Py.lit "user") user_message ;;
       ai_reply <- generate_response w (format w user_message) ;;
       add_commit_message (Chat.id chat) (Py.lit "assistant") (Py.VStr ai_reply) ;;
       ret (jsonify
              (Py.VDict [ (Py.lit "chat_id", Py.VInt (Chat.id chat));
                          (Py.lit "response", Py.VStr ai_reply) ])))
    (fun e =>
       emit (LogException "Chat error" e) ;;
       ret (mkResponse
              (Py.VDict [ (Py.lit "error", Py.VStr (Py.lit "Internal server error"));
                          (Py.lit "details", Py.VStr (str_exn w e)) ])
              500)).

End Routes.

(* ================================================================== *)
(** * Vocabulary of the statements *)
(* ================================================================== *)

(** [s.startswith(p)] and [s.endswith(p)]. *)
Definition startswith (s p : Py.str) : bool := Py.prefixb p s.
Definition endswith (s p : Py.str) : bool := Py.prefixb (rev p) (rev s).

(** [a] was created no later than [b] (a missing timestamp counts as the
    earliest, as in the store's ascending order). *)
Definition created_le (a b : option Datetime.t) : Prop :=
  Datetime.opt_leb a b = true.

(** What a step may change: it only appends to the trace. *)
Definition only_logs (s s' : state) : Prop :=
  db s' = db s /\ commits s' = commits s /\ ticks s' = ticks s
  /\ exists evs, trace s' = trace s ++ evs.

(** The shape of a well-formed completion body: an object whose ["choices"]
    is a non-empty list, the first choice an object whose ["message"] is an
    object whose ["content"] is the string [text]. *)
Inductive completion_text : Py.value -> Py.str -> Prop :=
| completion_text_intro items ci rest mi text :
    Py.lookup (Py.lit "choices") items = Some (Py.VList (Py.VDict ci :: rest)) ->
    Py.lookup (Py.lit "message") ci = Some (Py.VDict mi) ->
    Py.lookup (Py.lit "content") mi = Some (Py.VStr text) ->
    completion_text (Py.VDict items) text.

Section ChainVocabulary.

Variable w : world.
Variable prompt : Py.str.

(** The OpenRouter attempt did not produce a reply: the call raised (timeout,
    network failure), the status is not 200, or the body of a 200 response
    cannot be parsed, has no usable first choice, or has no choice at all. *)
Inductive primary_failed : Prop :=
| primary_raised e :
    requests_post w (openrouter_request w prompt) = Py.Raise e ->
    primary_failed
| primary_status r :
    requests_post w (openrouter_request w prompt) = Py.Ok r ->
    Http.status_code r <> 200%Z ->
    primary_failed
| primary_unparsed r e :
    requests_post w (openrouter_request w prompt) = Py.Ok r ->
    Http.status_code r = 200%Z ->
    Http.json_body r = Py.Raise e ->
    primary_failed
| primary_malformed r data e :
    requests_post w (openrouter_request w prompt) = Py.Ok r ->
    Http.status_code r = 200%Z ->
    Http.json_body r = Py.Ok data ->
    first_choice data = Py.Raise e ->
    primary_failed
| primary_no_choice r data :
    requests_post w (openrouter_request w prompt) = Py.Ok r ->
    Http.status_code r = 200%Z ->
    Http.json_body r = Py.Ok data ->
    first_choice data = Py.Ok None ->
    primary_failed.

Definition primary_unavailable : Prop :=
  env_set w "OPENROUTER_API_KEY" = false \/ primary_failed.

(** The Gemini attempt did not produce a reply. *)
Inductive secondary_failed : Prop :=
| secondary_client e :
    genai_Client w (env_text w "GEMINI_API_KEY") = Some e ->
    secondary_failed
| secondary_raised e :
    genai_Client w (env_text w "GEMINI_API_KEY") = None ->
    generate_content w (env_text w "GEMINI_API_KEY") GEMINI_MODEL prompt
      = Py.Raise e ->
    secondary_failed
| secondary_no_text resp e :
    genai_Client w (env_text w "GEMINI_API_KEY") = None ->
    generate_content w (env_text w "GEMINI_API_KEY") GEMINI_MODEL prompt
      = Py.Ok resp ->
    gemini_text resp = Py.Raise e ->
    secondary_failed.

Definition secondary_unavailable : Prop :=
  HAS_GENAI w = false \/ env_set w "GEMINI_API_KEY" = false \/ secondary_failed.

(** The Gemini call returned [resp]. *)
Definition secondary_answers (resp : Genai.response) : Prop :=
  HAS_GENAI w = true
  /\ env_set w "GEMINI_API_KEY" = true
  /\ genai_Client w (env_text w "GEMINI_API_KEY") = None
  /\ generate_content w (env_text w "GEMINI_API_KEY") GEMINI_MODEL prompt
       = Py.Ok resp.

End ChainVocabulary.

(** The [text] attribute is empty for the test [if not text]: absent, failing
    with [AttributeError] (which [getattr] turns into its default), or holding
    a false value such as [None] or the empty string. *)
Inductive text_empty (resp : Genai.response) : Prop :=
| text_missing : Genai.text resp = Genai.Missing -> text_empty resp
| text_attribute_error :
    Genai.text resp = Genai.Fails Py.AttributeError -> text_empty resp
| text_false v :
    Genai.text resp = Genai.Has v -> Py.truthy v = false -> text_empty resp.

(** The response text: the [text] attribute when it is a non-empty string,
    otherwise the [output] of the first candidate. *)
Inductive response_text (resp : Genai.response) (t : Py.str) : Prop :=
| text_primary :
    Genai.text resp = Genai.Has (Py.VStr t) -> t <> [] ->
    response_text resp t
| text_nested c rest :
    text_empty resp ->
    Genai.candidates resp = Genai.Has (Some (c :: rest)) ->
    Genai.output c = Genai.Has (Py.VStr t) ->
    response_text resp t.

(** The request opens a new conversation: it carries no ["chat_id"], or one
    that is false ([null], [0]), or one that finds no chat. *)
Inductive starts_new_conversation
  (w : world) (items : list (Py.str * Py.value)) (st : store) : Prop :=
| chat_id_absent :
    Py.lookup (Py.lit "chat_id") items = None ->
    starts_new_conversation w items st
| chat_id_false v :
    Py.lookup (Py.lit "chat_id") items = Some v ->
    Py.truthy v = false ->
    starts_new_conversation w items st
| chat_id_unresolved v :
    Py.lookup (Py.lit "chat_id") items = Some v ->
    Py.truthy v = true ->
    resolve w v st = Py.Ok None ->
    starts_new_conversation w items st.

(** ** Vocabulary of the further properties *)

Definition is_post (ev : event) : bool :=
  match ev with Post _ => true | _ => false end.

Definition is_generate (ev : event) : bool :=
  match ev with GenerateContent _ _ _ => true | _ => false end.

Definition is_warning (ev : event) : bool :=
  match ev with LogWarning _ _ => true | _ => false end.

(** A call that leaves the process. *)
Definition is_call (ev : event) : bool :=
  match ev with
  | Post _ | ClientNew _ | GenerateContent _ _ _ => true
  | _ => false
  end.

(** The state after more events. *)
Definition add_events (s : state) (evs : list event) : state :=
  mkState (db s) (trace s ++ evs) (commits s) (ticks s).

(** What the OpenRouter step leaves in the trace: nothing without the
    credential, otherwise its one request followed by warnings. *)
Inductive primary_events (w : world) (prompt : Py.str) : list event -> Prop :=
| primary_skipped :
    env_set w "OPENROUTER_API_KEY" = false ->
    primary_events w prompt []
| primary_posted logs :
    env_set w "OPENROUTER_API_KEY" = true ->
    forallb is_warning logs = true ->
    primary_events w prompt (Post (openrouter_request w prompt) :: logs).

(** What the Gemini step leaves in the trace. *)
Inductive secondary_events (w : world) (prompt : Py.str) : list event -> Prop :=
| secondary_skipped :
    HAS_GENAI w && env_set w "GEMINI_API_KEY" = false ->
    secondary_events w prompt []
| secondary_client_only logs :
    HAS_GENAI w && env_set w "GEMINI_API_KEY" = true ->
    forallb is_warning logs = true ->
    secondary_events w prompt (ClientNew (env_text w "GEMINI_API_KEY") :: logs)
| secondary_called logs :
    HAS_GENAI w && env_set w "GEMINI_API_KEY" = true ->
    forallb is_warning logs = true ->
    secondary_events w prompt
      (ClientNew (env_text w "GEMINI_API_KEY")
       :: GenerateContent (env_text w "GEMINI_API_KEY") GEMINI_MODEL prompt
       :: logs).

(** A string that neither starts nor ends with whitespace. *)
Definition trimmed (s : Py.str) : Prop :=
  (forall c rest, s = c :: rest -> Py.isspace c = false)
  /\ (forall c init, s = init ++ [c] -> Py.isspace c = false).


(** The [except] clause of [chat]. *)
Definition on_error (w : world) (e : Py.exn) : M response :=
  emit (LogException "Chat error" e) ;;
  ret (mkResponse
         (Py.VDict [ (Py.lit "error", Py.VStr (Py.lit "Internal server error"));
                     (Py.lit "details", Py.VStr (str_exn w e)) ])
         500).

(** Lines 169-188 of [chat]: the turn, once the chat row is known. *)
Definition turn (w : world) (c : Chat.t) (user_message : Py.value) : M response :=
  add_commit_message w (Chat.id c) (Py.lit "user") user_message ;;
  ai_reply <- generate_response w (format w user_message) ;;
  add_commit_message w (Chat.id c) (Py.lit "assistant") (Py.VStr ai_reply) ;;
  ret (jsonify
         (Py.VDict [ (Py.lit "chat_id", Py.VInt (Chat.id c));
                     (Py.lit "response", Py.VStr ai_reply) ])).

(** The state after a commit that the store refused. *)
Definition refused_commit (s : state) : state :=
  mkState (db s) (trace s) (S (commits s)) (ticks s).

(** The state after an insert for which the table had no row id left. *)
Definition no_row_id (s : state) : state :=
  mkState (db s) (trace s) (S (commits s)) (S (ticks s)).

(** The row a committed [Chat(title=...)] becomes under the id [i], and the
    state after it. *)
Definition stored_chat (w : world) (s : state) (i : Z) (title : option Py.str)
  : Chat.t :=
  Chat.mk i title (Some (utcnow w (ticks s))).

Definition after_chat (w : world) (s : state) (i : Z) (title : option Py.str)
  : state :=
  mkState (mkStore (chats (db s) ++ [stored_chat w s i title]) (messages (db s)))
          (trace s) (S (commits s)) (S (ticks s)).

(** The row a committed [Message(...)] becomes under the id [i], and the
    state after it. *)
Definition stored_message (w : world) (s : state) (i chat_id : Z)
  (role text : Py.str) : Message.t :=
  Message.mk i chat_id role text (Some (utcnow w (ticks s))).

Definition after_message (w : world) (s : state) (i chat_id : Z)
  (role text : Py.str) : state :=
  mkState (mkStore (chats (db s))
                   (messages (db s) ++ [stored_message w s i chat_id role text]))
          (trace s) (S (commits s)) (S (ticks s)).

(** The rows one turn may add to [messages]: none, the user's, or the user's
    then the assistant's. *)
Definition turn_rows (chat_id : Z) (ms : list Message.t) : Prop :=
  match ms with
  | [] => True
  | [mu] =>
      Message.chat_id mu = chat_id /\ Message.role mu = Py.lit "user"
  | [mu; ma] =>
      Message.chat_id mu = chat_id /\ Message.role mu = Py.lit "user"
      /\ Message.chat_id ma = chat_id /\ Message.role ma = Py.lit "assistant"
  | _ => False
  end.

(** The table has not reached its largest row id: every id in use is below
    [INT64_MAX], so an insert takes the id after the largest. *)
Definition has_room (ids : list Z) : Prop :=
  forall i, In i ids -> (i < INT64_MAX)%Z.

(** Every message belongs to a stored chat. *)
Definition referential_integrity (st : store) : Prop :=
  forall m, In m (messages st) ->
    exists c, In c (chats st) /\ Chat.id c = Message.chat_id m.

(** Bodies the handler cannot read a message from, with the exception each
    one ends in: [get_json] raises; the body is a number or [true], on which
    the membership test raises; the body is a string that has "message"
    inside, or a list with the element "message", which pass the membership
    test and cannot be indexed by a string. *)
Inductive unusable_body (rq : request) : Py.exn -> Prop :=
| body_unreadable e :
    get_json rq = Py.Raise e -> unusable_body rq e
| body_integer z :
    get_json rq = Py.Ok (Py.VInt z) -> z <> 0%Z -> unusable_body rq Py.TypeError
| body_true :
    get_json rq = Py.Ok (Py.VBool true) -> unusable_body rq Py.TypeError
| body_text t :
    get_json rq = Py.Ok (Py.VStr t) ->
    Py.infixb (Py.lit "message") t = true ->
    unusable_body rq Py.TypeError
| body_list l :
    get_json rq = Py.Ok (Py.VList l) ->
    In (Py.VStr (Py.lit "message")) l ->
    unusable_body rq Py.TypeError.

(* ================================================================== *)
(** * Sample worlds, stores and requests *)
(* ================================================================== *)

Module Sample.

Definition refused : Py.exn := Py.LibraryError (Py.lit "connection refused").
Definition unsupported : Py.exn := Py.LibraryError (Py.lit "unsupported type").
Definition full : Py.exn := Py.LibraryError (Py.lit "database or disk is full").

(** No credential, no SDK, nothing reachable; a store that accepts commits. *)
Definition offline : world :=
  mkWorld
    (fun _ => None) false
    (fun _ => Py.Raise refused)
    (fun _ => None)
    (fun _ _ _ => Py.Raise refused)
    (fun n => Datetime.mk 2025 1 1 0 0 (N.of_nat n) 0)
    (fun _ => None)
    (fun _ => Py.Raise full)
    (fun _ => Py.Raise unsupported)
    (fun _ => Py.Raise unsupported)
    (fun _ => Py.lit "<object>")
    (fun _ => Py.lit "error").

Definition with_env (env : string -> option Py.str) (w : world) : world :=
  mkWorld env (HAS_GENAI w) (requests_post w) (genai_Client w)
          (generate_content w) (utcnow w) (commit_error w) (pick_rowid w) (adapt_text w)
          (adapt_int w) (str_of w) (error_text w).

Definition with_post (p : Http.request -> Py.result Http.response) (w : world)
  : world :=
  mkWorld (getenv w) (HAS_GENAI w) p (genai_Client w)
          (generate_content w) (utcnow w) (commit_error w) (pick_rowid w) (adapt_text w)
          (adapt_int w) (str_of w) (error_text w).

Definition with_genai (g : Py.str -> Py.str -> Py.str -> Py.result Genai.response)
  (w : world) : world :=
  mkWorld (getenv w) true (requests_post w) (genai_Client w)
          g (utcnow w) (commit_error w) (pick_rowid w) (adapt_text w)
          (adapt_int w) (str_of w) (error_text w).


Definition env_gemini (name : string) : option Py.str :=
  if String.eqb name "GEMINI_API_KEY" then Some (Py.lit "AIza") else None.

Definition env_both (name : string) : option Py.str :=
  if String.eqb name "OPENROUTER_API_KEY" then Some (Py.lit "sk-or")
  else if String.eqb name "GEMINI_API_KEY" then Some (Py.lit "AIza")
  else None.

(** A completion body: one choice whose content has whitespace around it. *)
Definition completion : Py.value :=
  Py.VDict
    [ (Py.lit "id", Py.VStr (Py.lit "gen-1"));
      (Py.lit "choices",
        Py.VList
          [ Py.VDict
              [ (Py.lit "message",
                  Py.VDict [ (Py.lit "role", Py.VStr (Py.lit "assistant"));
                             (Py.lit "content", Py.VStr (Py.lit "  Hello!" ++ Py.nl)) ]) ] ]) ].

Definition http_ok : Http.response :=
  Http.mkResponse 200 (Py.lit "{...}") (Py.Ok completion).

Definition http_500 : Http.response :=
  Http.mkResponse 500 (Py.lit "upstream error")
    (Py.Raise (Py.LibraryError (Py.lit "Expecting value"))).

(** A Gemini answer in the [text] attribute. *)
Definition answer_text : Genai.response :=
  Genai.mkResponse (Genai.Has (Py.VStr (Py.lit "Hi there" ++ Py.nl)))
                   (Genai.Has None).

(** A Gemini answer whose [text] is empty and whose first candidate carries
    the output. *)
Definition answer_nested : Genai.response :=
  Genai.mkResponse (Genai.Has Py.VNone)
    (Genai.Has (Some [ Genai.mkCandidate (Genai.Has (Py.VStr (Py.lit " nested "))) ])).

Definition primary_up : world :=
  with_env env_both (with_post (fun _ => Py.Ok http_ok)
    (with_genai (fun _ _ _ => Py.Ok answer_text) offline)).

(** Both credentials set, both providers failing. *)
Definition all_down : world :=
  with_env env_both (with_post (fun _ => Py.Ok http_500)
    (with_genai (fun _ _ _ => Py.Raise refused) offline)).

Definition primary_down : world :=
  with_env env_both (with_post (fun _ => Py.Ok http_500)
    (with_genai (fun _ _ _ => Py.Ok answer_text) offline)).

Definition at_ (h : N) : option Datetime.t := Some (Datetime.mk 2025 3 9 h 30 0 0).

Definition two_chats : store :=
  mkStore
    [ Chat.mk 1 (Some (Py.lit "first")) (at_ 8);
      Chat.mk 2 (Some (Py.lit "second")) (at_ 9) ]
    [ Message.mk 1 1 (Py.lit "user") (Py.lit "hello") (at_ 8);
      Message.mk 2 2 (Py.lit "user") (Py.lit "other") (at_ 9);
      Message.mk 3 1 (Py.lit "assistant") (Py.lit "hi") (at_ 10) ].

Definition empty_store : store := mkStore [] [].

Definition start (s : store) : state := mkState s [] 0 0.

Definition post_body (items : list (Py.str * Py.value)) : request :=
  mkRequest (Py.Ok (Py.VDict items)).

Definition hey : request :=
  post_body [ (Py.lit "message", Py.VStr (Py.lit "hey")) ].

Definition five : request :=
  post_body [ (Py.lit "message", Py.VInt 5) ].

Definition empty_list : request :=
  post_body [ (Py.lit "message", Py.VList []) ].

(** A driver that renders a list as text. *)
Definition lenient : world :=
  mkWorld (getenv offline) (HAS_GENAI offline) (requests_post offline)
          (genai_Client offline) (generate_content offline) (utcnow offline)
          (commit_error offline) (pick_rowid offline)
          (fun v => match v with
                    | Py.VList [] => Py.Ok (Some (Py.lit "{}"))
                    | _ => Py.Raise unsupported
                    end)
          (adapt_int offline) (fun _ => Py.lit "[]") (error_text offline).




Definition hey_again : request :=
  post_body [ (Py.lit "message", Py.VStr (Py.lit "hey"));
              (Py.lit "chat_id", Py.VInt 2) ].

Definition with_commit_error (f : nat -> option Py.exn) (w : world) : world :=
  mkWorld (getenv w) (HAS_GENAI w) (requests_post w) (genai_Client w)
          (generate_content w) (utcnow w) f (pick_rowid w) (adapt_text w)
          (adapt_int w) (str_of w) (error_text w).

Definition disk_full : Py.exn := Py.LibraryError (Py.lit "disk full").

Definition second_commit_fails : world :=
  with_commit_error (fun n => if Nat.eqb n 1 then Some disk_full else None)
                    primary_up.

Definition third_commit_fails : world :=
  with_commit_error (fun n => if Nat.eqb n 2 then Some disk_full else None)
                    primary_up.

(** A chat without title, timestamp or message, beside a message of another
    chat. *)
Definition lonely_chat : store :=
  mkStore [ Chat.mk 5 None None ]
          [ Message.mk 1 9 (Py.lit "user") (Py.lit "stray") None ].

End Sample.

(* ================================================================== *)
(** * Proof set-up *)
(* ================================================================== *)

Arguments first_choice : simpl never.
Arguments gemini_text : simpl never.
Arguments str_exn : simpl never.
Arguments openrouter_request : simpl never.
Arguments build_prompt : simpl never.
Arguments env_text : simpl never.
Arguments env_set : simpl never.
Arguments format : simpl never.
Arguments GEMINI_MODEL : simpl never.
Arguments UNAVAILABLE : simpl never.
Arguments generate_response : simpl never.

Create HintDb chain.

(** Closes [exists r s', step s = (s', Ok r) /\ only_logs s s'] once the
    step has been evaluated. *)
Ltac logged :=
  repeat eexists; cbn; rewrite <- ?app_assoc;
  first [reflexivity | symmetry; apply app_nil_r].

(* ================================================================== *)
(** * Strings *)
(* ================================================================== *)

Lemma str_eqb_refl (s : Py.str) : Py.str_eqb s s = true.
Proof.
  induction s as [|c s IH]; simpl; [reflexivity|].
  now rewrite N.eqb_refl, IH.
Qed.

Lemma str_eqb_eq (a b : Py.str) : Py.str_eqb a b = true <-> a = b.
Proof.
  split.
  - revert b; induction a as [|x a IH]; intros [|y b] H; simpl in H;
      try discriminate; [reflexivity|].
    apply andb_true_iff in H as [Hx Hab].
    apply N.eqb_eq in Hx. f_equal; auto.
  - intros ->. apply str_eqb_refl.
Qed.

Lemma prefixb_app (p s : Py.str) : Py.prefixb p (p ++ s) = true.
Proof.
  induction p as [|c p IH]; simpl; [reflexivity|].
  now rewrite N.eqb_refl, IH.
Qed.

Lemma endswith_app (a s : Py.str) : endswith (a ++ s) s = true.
Proof. unfold endswith. rewrite rev_app_distr. apply prefixb_app. Qed.

Lemma lstrip_no_leading_space (s : Py.str) :
  match Py.lstrip s with
  | c :: _ => Py.isspace c = false
  | [] => True
  end.
Proof.
  induction s as [|c s IH]; simpl; [exact I|].
  destruct (Py.isspace c) eqn:E; [exact IH | exact E].
Qed.

Lemma lstrip_suffix (s : Py.str) : exists p, s = p ++ Py.lstrip s /\ forallb Py.isspace p = true.
Proof.
  induction s as [|c s (p & Hp & Hs)]; simpl.
  - now exists [].
  - destruct (Py.isspace c) eqn:E.
    + exists (c :: p). simpl. rewrite E, Hs. split; [now f_equal | reflexivity].
    + now exists [].
Qed.

(** [strip] removes a run of whitespace at each end and nothing else. *)
Lemma strip_decompose (s : Py.str) :
  exists p q, s = p ++ Py.strip s ++ q
    /\ forallb Py.isspace p = true /\ forallb Py.isspace q = true.
Proof.
  unfold Py.strip, Py.rstrip.
  destruct (lstrip_suffix s) as (p & Hp & Hps).
  destruct (lstrip_suffix (rev (Py.lstrip s))) as (q & Hq & Hqs).
  exists p, (rev q). repeat split; auto.
  - rewrite Hp at 1. f_equal.
    rewrite <- (rev_involutive (Py.lstrip s)) at 1.
    rewrite Hq at 1. now rewrite rev_app_distr.
  - rewrite forallb_forall in *. intros x Hx. apply Hqs. now apply in_rev.
Qed.

Lemma lstrip_snoc (a : Py.str) (c : N) :
  Py.isspace c = false -> Py.lstrip (a ++ [c]) = Py.lstrip a ++ [c].
Proof.
  intros Hc. induction a as [|x a IH]; simpl.
  - now rewrite Hc.
  - destruct (Py.isspace x); [exact IH | reflexivity].
Qed.

(** What [strip] returns neither starts nor ends with whitespace. *)
Lemma strip_trimmed (s : Py.str) :
  (forall c rest, Py.strip s = c :: rest -> Py.isspace c = false)
  /\ (forall c init, Py.strip s = init ++ [c] -> Py.isspace c = false).
Proof.
  unfold Py.strip, Py.rstrip. split.
  - intros c rest H.
    pose proof (lstrip_no_leading_space s) as Hl.
    destruct (Py.lstrip s) as [|c0 t]; [discriminate H|].
    simpl in H. rewrite (lstrip_snoc (rev t) c0 Hl), rev_app_distr in H. simpl in H.
    now injection H as <- _.
  - intros c init H.
    pose proof (lstrip_no_leading_space (rev (Py.lstrip s))) as Hl.
    apply (f_equal (@rev N)) in H.
    rewrite rev_involutive, rev_app_distr in H. simpl in H.
    now rewrite H in Hl.
Qed.

(* ================================================================== *)
(** * Orders and sorting *)
(* ================================================================== *)

Lemma lex_leb_total (a b : list N) :
  Datetime.lex_leb a b = false -> Datetime.lex_leb b a = true.
Proof.
  revert b; induction a as [|x a IH]; intros [|y b]; simpl; try easy.
  destruct (N.ltb_spec x y), (N.eqb_spec x y), (N.ltb_spec y x), (N.eqb_spec y x);
    try easy; try lia.
  apply IH.
Qed.

Lemma lex_leb_trans (a b c : list N) :
  Datetime.lex_leb a b = true -> Datetime.lex_leb b c = true ->
  Datetime.lex_leb a c = true.
Proof.
  revert b c; induction a as [|x a IH]; intros [|y b] [|z c]; simpl; try easy.
  destruct (N.ltb_spec x y), (N.eqb_spec x y), (N.ltb_spec y z), (N.eqb_spec y z),
           (N.ltb_spec x z), (N.eqb_spec x z); try easy; try lia.
  apply IH.
Qed.

Lemma opt_leb_total (a b : option Datetime.t) :
  Datetime.opt_leb a b = false -> Datetime.opt_leb b a = true.
Proof.
  destruct a, b; simpl; try easy. apply lex_leb_total.
Qed.

Lemma opt_leb_trans (a b c : option Datetime.t) :
  Datetime.opt_leb a b = true -> Datetime.opt_leb b c = true ->
  Datetime.opt_leb a c = true.
Proof.
  destruct a, b, c; simpl; try easy. apply lex_leb_trans.
Qed.

Section OrderByFacts.
Variable A : Type.
Variable le : A -> A -> bool.
Hypothesis le_total : forall a b, le a b = false -> le b a = true.
Hypothesis le_trans : forall a b c, le a b = true -> le b c = true -> le a c = true.

Let leP (a b : A) : Prop := le a b = true.

Lemma insert_by_perm (x : A) (l : list A) :
  Permutation (insert_by le x l) (x :: l).
Proof.
  induction l as [|y l IH]; simpl; [reflexivity|].
  destruct (le x y); [reflexivity|].
  rewrite IH. apply perm_swap.
Qed.

Lemma order_by_perm (l : list A) : Permutation (order_by le l) l.
Proof.
  induction l as [|x l IH]; simpl; [reflexivity|].
  rewrite insert_by_perm. now constructor.
Qed.

Lemma insert_by_sorted (x : A) (l : list A) :
  StronglySorted leP l -> StronglySorted leP (insert_by le x l).
Proof.
  induction 1 as [|y l Hs IH Hy]; simpl.
  - repeat constructor.
  - destruct (le x y) eqn:E.
    + constructor; [now constructor|].
      constructor; [exact E|].
      eapply Forall_impl; [|exact Hy]. intros z Hz. now apply le_trans with y.
    + constructor; [exact IH|].
      eapply Permutation_Forall; [symmetry; apply insert_by_perm|].
      constructor; [now apply le_total | exact Hy].
Qed.

Lemma order_by_sorted (l : list A) : StronglySorted leP (order_by le l).
Proof.
  induction l as [|x l IH]; simpl; [constructor|].
  now apply insert_by_sorted.
Qed.
End OrderByFacts.

(* ================================================================== *)
(** * The prompt *)
(* ================================================================== *)

(** C7: [build_prompt] is a function of its argument alone; its output is the
    instructions block, the separator and the message, so it starts with the
    fixed instructions block and ends with the message. *)
Theorem build_prompt_pure_prefix_suffix (s : Py.str) :
  build_prompt s = SYSTEM_INSTRUCTIONS ++ PROMPT_SEPARATOR ++ s
  /\ startswith (build_prompt s) SYSTEM_INSTRUCTIONS = true
  /\ endswith (build_prompt s) s = true.
Proof.
  unfold build_prompt. split; [reflexivity|]. split.
  - exact (prefixb_app SYSTEM_INSTRUCTIONS (PROMPT_SEPARATOR ++ s)).
  - rewrite (app_assoc SYSTEM_INSTRUCTIONS PROMPT_SEPARATOR s).
    exact (endswith_app (SYSTEM_INSTRUCTIONS ++ PROMPT_SEPARATOR) s).
Qed.

Example build_prompt_hi :
  build_prompt (Py.lit "hi") =
  Py.lit "You are a friendly AI assistant like ChatGPT." ++ [10%N] ++
  Py.lit "Rules:" ++ [10%N] ++
  Py.lit "- Give clean, well-spaced answers" ++ [10%N] ++
  Py.lit "- Use bullet points or tables when useful" ++ [10%N] ++
  Py.lit "- Do NOT use # symbols" ++ [10%N] ++
  Py.lit "- Keep answers clear and readable" ++ [10%N] ++
  Py.lit "- Be concise and helpful" ++ [10%N; 10%N; 10%N] ++
  Py.lit "User:" ++ [10%N] ++ Py.lit "hi".
Proof. reflexivity. Qed.

(* ================================================================== *)
(** * The read routes *)
(* ================================================================== *)

Lemma find_chat_some (k : Z) (s : store) (c : Chat.t) :
  find_chat k s = Some c -> In c (chats s) /\ Chat.id c = k.
Proof.
  unfold find_chat. intros H. apply find_some in H as [Hin Hid].
  split; [exact Hin | now apply Z.eqb_eq].
Qed.

Lemma find_chat_none (k : Z) (s : store) :
  find_chat k s = None <-> (forall c, In c (chats s) -> Chat.id c <> k).
Proof.
  unfold find_chat. split.
  - intros H c Hin Hid.
    pose proof (find_none _ _ H c Hin) as Hn. simpl in Hn.
    apply Z.eqb_neq in Hn. contradiction.
  - intros H. destruct (find _ _) as [c|] eqn:E; [|reflexivity].
    apply find_some in E as [Hin Hid]. apply Z.eqb_eq in Hid.
    now apply H in Hin.
Qed.

(** [isoformat] on a whole second and with a microsecond part. *)
Example isoformat_whole_second :
  Datetime.isoformat (Datetime.mk 2025 3 9 8 30 0 0)
  = Py.lit "2025-03-09T08:30:00".
Proof. reflexivity. Qed.

Example isoformat_microsecond :
  Datetime.isoformat (Datetime.mk 987 12 31 23 59 58 1500)
  = Py.lit "0987-12-31T23:59:58.001500".
Proof. reflexivity. Qed.

Lemma query_get_found (k : Z) (s : store) (c0 : Chat.t) :
  In c0 (chats s) -> Chat.id c0 = k ->
  exists c, query_get k s = Py.Ok (Some c) /\ In c (chats s) /\ Chat.id c = k.
Proof.
  intros Hin Hid. unfold query_get.
  destruct (find_chat k s) as [c|] eqn:E.
  - exists c. split; [reflexivity|]. now apply find_chat_some.
  - rewrite find_chat_none in E. now apply E in Hin.
Qed.

Lemma query_get_some (k : Z) (s : store) (c : Chat.t) :
  query_get k s = Py.Ok (Some c) -> find_chat k s = Some c.
Proof.
  unfold query_get. destruct (find_chat k s) as [c'|].
  - now intros [= ->].
  - destruct (in_int64 k); discriminate.
Qed.

Lemma in_int64_iff (z : Z) :
  in_int64 z = true <-> (- 2 ^ 63 <= z <= 2 ^ 63 - 1)%Z.
Proof.
  unfold in_int64, INT64_MIN, INT64_MAX.
  rewrite andb_true_iff, !Z.leb_le. reflexivity.
Qed.


(** C9: GET /chats answers 200 with the summaries of all the stored chats,
    newest first; a summary is the object with the chat's ["id"], ["title"]
    ([null] when it has none) and ["created_at"] in ISO format ([null] when
    it has none). *)
Theorem list_chats_newest_first (s : store) :
  exists cs,
    list_chats s =
      mkResponse
        (Py.VList
           (map (fun c =>
                   Py.VDict
                     [ (Py.lit "id", Py.VInt (Chat.id c));
                       (Py.lit "title",
                         match Chat.title c with
                         | Some t => Py.VStr t
                         | None => Py.VNone
                         end);
                       (Py.lit "created_at",
                         match Chat.created_at c with
                         | Some d => Py.VStr (Datetime.isoformat d)
                         | None => Py.VNone
                         end) ])
                cs))
        200
    /\ Permutation cs (chats s)
    /\ StronglySorted
         (fun a b => created_le (Chat.created_at b) (Chat.created_at a)) cs.
Proof.
  eexists. split; [reflexivity|]. split.
  - apply order_by_perm.
  - apply order_by_sorted.
    + intros a b. apply opt_leb_total.
    + intros a b c H1 H2. eapply opt_leb_trans; eassumption.
Qed.

(** The newest chat of the sample store comes first, with its three
    members. *)
Example list_chats_two_chats :
  list_chats Sample.two_chats =
    mkResponse
      (Py.VList
         [ Py.VDict [ (Py.lit "id", Py.VInt 2);
                      (Py.lit "title", Py.VStr (Py.lit "second"));
                      (Py.lit "created_at", Py.VStr (Py.lit "2025-03-09T09:30:00")) ];
           Py.VDict [ (Py.lit "id", Py.VInt 1);
                      (Py.lit "title", Py.VStr (Py.lit "first"));
                      (Py.lit "created_at", Py.VStr (Py.lit "2025-03-09T08:30:00")) ] ])
      200.
Proof. reflexivity. Qed.



(** The two stored messages of chat 1, oldest first, each with its four
    members. *)
Example get_chat_two_chats :
  get_chat 1 Sample.two_chats =
    Py.Ok
      (mkResponse
         (Py.VDict
            [ (Py.lit "messages",
               Py.VList
                 [ Py.VDict [ (Py.lit "id", Py.VInt 1);
                              (Py.lit "role", Py.VStr (Py.lit "user"));
                              (Py.lit "content", Py.VStr (Py.lit "hello"));
                              (Py.lit "created_at",
                                Py.VStr (Py.lit "2025-03-09T08:30:00")) ];
                   Py.VDict [ (Py.lit "id", Py.VInt 3);
                              (Py.lit "role", Py.VStr (Py.lit "assistant"));
                              (Py.lit "content", Py.VStr (Py.lit "hi"));
                              (Py.lit "created_at",
                                Py.VStr (Py.lit "2025-03-09T10:30:00")) ] ]) ])
         200).
Proof. reflexivity. Qed.


(* ================================================================== *)
(** * The provider chain *)
(* ================================================================== *)

Lemma only_logs_refl (s : state) : only_logs s s.
Proof. repeat split. exists []. now rewrite app_nil_r. Qed.

#[local] Hint Resolve only_logs_refl : chain.

Lemma only_logs_trans (a b c : state) :
  only_logs a b -> only_logs b c -> only_logs a c.
Proof.
  intros (H1 & H2 & H3 & e1 & H4) (G1 & G2 & G3 & e2 & G4).
  repeat split; try congruence.
  exists (e1 ++ e2). now rewrite G4, H4, app_assoc.
Qed.

Lemma first_choice_completion (data : Py.value) (text : Py.str) :
  completion_text data text -> first_choice data = Py.Ok (Some (Py.strip text)).
Proof.
  intros [items ci rest mi t Hc Hm Ht].
  unfold first_choice. simpl. rewrite Hc. simpl. rewrite Hm. simpl.
  now rewrite Ht.
Qed.

Section ChainFacts.

Variable w : world.
Variable prompt : Py.str.

Lemma try_openrouter_total (s : state) :
  exists r s', try_openrouter w prompt s = (s', Py.Ok r) /\ only_logs s s'.
Proof.
  unfold try_openrouter, only_logs.
  destruct (env_set w "OPENROUTER_API_KEY"); [|exists None, s; logged].
  unfold try_except, post, warning, lift, raise, emit. cbn.
  destruct (requests_post w _) as [r|e]; cbn; [|logged].
  destruct (Http.status_code r =? 200)%Z; cbn; [|logged].
  destruct (Http.json_body r) as [data|e]; cbn; [|logged].
  destruct (first_choice data) as [o|e]; cbn; logged.
Qed.

Lemma try_gemini_total (s : state) :
  exists r s', try_gemini w prompt s = (s', Py.Ok r) /\ only_logs s s'.
Proof.
  unfold try_gemini, only_logs.
  destruct (HAS_GENAI w && env_set w "GEMINI_API_KEY"); [|exists None, s; logged].
  unfold try_except, new_client, call_generate_content, warning, lift, raise, emit.
  cbn.
  destruct (genai_Client w _) as [e|]; cbn; [logged|].
  destruct (generate_content w _ _ _) as [resp|e]; cbn; [|logged].
  destruct (gemini_text resp) as [t|e]; cbn; logged.
Qed.

Lemma try_openrouter_unavailable (s : state) :
  primary_unavailable w prompt ->
  exists s', try_openrouter w prompt s = (s', Py.Ok None) /\ only_logs s s'.
Proof.
  intros H. destruct (try_openrouter_total s) as (r & s' & E & L).
  exists s'. split; [|exact L]. rewrite E. do 2 f_equal.
  revert E. unfold try_openrouter.
  destruct H as [-> | H]; [now intros [= _ <-]|].
  destruct (env_set w "OPENROUTER_API_KEY"); [|now intros [= _ <-]].
  unfold try_except, post, warning, lift, raise, emit. cbn.
  destruct H as [e Hp | r0 Hp Hs | r0 e Hp Hs Hj | r0 data e Hp Hs Hj Hf
                | r0 data Hp Hs Hj Hf]; rewrite Hp; cbn.
  - now intros [= _ <-].
  - apply Z.eqb_neq in Hs. rewrite Hs. cbn. now intros [= _ <-].
  - rewrite Hs, Hj. cbn. now intros [= _ <-].
  - rewrite Hs, Hj. cbn. rewrite Hf. cbn. now intros [= _ <-].
  - rewrite Hs, Hj. cbn. rewrite Hf. now intros [= _ <-].
Qed.

Lemma try_gemini_unavailable (s : state) :
  secondary_unavailable w prompt ->
  exists s', try_gemini w prompt s = (s', Py.Ok None) /\ only_logs s s'.
Proof.
  intros H. destruct (try_gemini_total s) as (r & s' & E & L).
  exists s'. split; [|exact L]. rewrite E. do 2 f_equal.
  revert E. unfold try_gemini.
  destruct H as [-> | [H | H]]; [now intros [= _ <-] | |].
  - rewrite H, andb_false_r. now intros [= _ <-].
  - destruct (HAS_GENAI w && env_set w "GEMINI_API_KEY"); [|now intros [= _ <-]].
    unfold try_except, new_client, call_generate_content, warning, lift, raise, emit.
    cbn.
    destruct H as [e Hc | e Hc Hg | resp e Hc Hg Ht]; rewrite Hc; cbn.
    + now intros [= _ <-].
    + rewrite Hg. cbn. now intros [= _ <-].
    + rewrite Hg. cbn. rewrite Ht. cbn. now intros [= _ <-].
Qed.

Lemma try_gemini_answers (s : state) (resp : Genai.response) (t : Py.str) :
  secondary_answers w prompt resp ->
  gemini_text resp = Py.Ok t ->
  exists s', try_gemini w prompt s = (s', Py.Ok (Some t)) /\ only_logs s s'.
Proof.
  intros (Hs & Hk & Hc & Hg) Ht.
  unfold try_gemini. rewrite Hs, Hk.
  unfold try_except, new_client, call_generate_content, warning, lift, raise, emit.
  cbn. rewrite Hc. cbn. rewrite Hg. cbn. rewrite Ht. cbn.
  unfold only_logs. logged.
Qed.

End ChainFacts.

(** ** The text of a Gemini answer *)

Lemma gemini_text_response_text (resp : Genai.response) (t : Py.str) :
  response_text resp t -> gemini_text resp = Py.Ok (Py.strip t).
Proof.
  unfold gemini_text, getattr_text, candidates0_output.
  intros [Ht Hne | c rest He Hc Ho].
  - rewrite Ht. destruct t; [contradiction | reflexivity].
  - destruct He as [He | He | v He Hv]; rewrite He; simpl;
      rewrite ?Hv; simpl; rewrite Hc, Ho; reflexivity.
Qed.

(** ** The chain as a whole *)

(** The chain always comes back with a reply. *)
Lemma generate_response_returns
  (w : world) (user_message : Py.str) (s : state) :
  exists reply s',
    generate_response w user_message s = (s', Py.Ok reply) /\ only_logs s s'.
Proof.
  unfold generate_response. cbn.
  destruct (try_openrouter_total w (build_prompt user_message) s)
    as ([t|] & s1 & E1 & L1); rewrite E1.
  - exists t, s1. now split.
  - destruct (try_gemini_total w (build_prompt user_message) s1)
      as ([t|] & s2 & E2 & L2); rewrite E2.
    + exists t, s2. split; [reflexivity|]. eapply only_logs_trans; eassumption.
    + exists UNAVAILABLE, s2. split; [reflexivity|].
      eapply only_logs_trans; eassumption.
Qed.

(** C1: whatever the message and whatever the two providers do (success,
    non-200 status, timeout, network failure, malformed body),
    [generate_response] returns a string and raises nothing to its caller;
    it touches nothing but the trace of calls and log records. *)
Theorem generate_response_never_raises
  (w : world) (user_message : Py.str) (s : state) :
  exists reply s',
    generate_response w user_message s = (s', Py.Ok reply) /\ only_logs s s'.
Proof. exact (generate_response_returns w user_message s). Qed.

(** C2: with the OpenRouter key configured and a 200 response whose body is
    a completion with a non-empty choice list, the reply is the trimmed text
    of the first choice, and the only call made is the one POST: nothing is
    sent to Gemini. *)
Theorem primary_success_returns_trimmed_first_choice
  (w : world) (user_message : Py.str) (s : state)
  (r : Http.response) (data : Py.value) (text : Py.str) :
  env_set w "OPENROUTER_API_KEY" = true ->
  requests_post w (openrouter_request w (build_prompt user_message)) = Py.Ok r ->
  Http.status_code r = 200%Z ->
  Http.json_body r = Py.Ok data ->
  completion_text data text ->
  exists s',
    generate_response w user_message s = (s', Py.Ok (Py.strip text))
    /\ trace s' = trace s ++ [Post (openrouter_request w (build_prompt user_message))]
    /\ existsb is_secondary_call (skipn (List.length (trace s)) (trace s')) = false.
Proof.
  intros Hk Hp Hs Hj Hc.
  unfold generate_response, try_openrouter. rewrite Hk.
  unfold try_except, post, warning, lift, raise, emit. cbn.
  rewrite Hp. cbn. rewrite Hs, Hj. cbn.
  rewrite (first_choice_completion Hc).
  eexists. split; [reflexivity|]. cbn. split; [reflexivity|].
  rewrite skipn_app, skipn_all, Nat.sub_diag. reflexivity.
Qed.

Lemma primary_success_witness :
  exists s',
    generate_response Sample.primary_up (Py.lit "hi")
      (Sample.start Sample.empty_store) = (s', Py.Ok (Py.lit "Hello!"))
    /\ trace s' =
         [Post (openrouter_request Sample.primary_up (build_prompt (Py.lit "hi")))]
    /\ existsb is_secondary_call (skipn 0 (trace s')) = false.
Proof.
  apply (@primary_success_returns_trimmed_first_choice
           Sample.primary_up (Py.lit "hi") (Sample.start Sample.empty_store)
           Sample.http_ok Sample.completion (Py.lit "  Hello!" ++ Py.nl));
    try reflexivity.
  eapply completion_text_intro; reflexivity.
Defined.

(** C3, as the code has it: when the OpenRouter step yields nothing
    (credential unset, call raised, status other than 200, unusable body) and
    the Gemini call returns, the reply is the response text with the
    whitespace at both ends removed; the text is the [text] attribute, or the
    first candidate's [output] when [text] is empty. *)
Theorem secondary_success_returns_trimmed_text
  (w : world) (user_message : Py.str) (s : state)
  (resp : Genai.response) (t : Py.str) :
  primary_unavailable w (build_prompt user_message) ->
  secondary_answers w (build_prompt user_message) resp ->
  response_text resp t ->
  exists s',
    generate_response w user_message s = (s', Py.Ok (Py.strip t))
    /\ only_logs s s'.
Proof.
  intros Hp Hs Ht.
  destruct (try_openrouter_unavailable s Hp) as (s1 & E1 & L1).
  destruct (try_gemini_answers s1 Hs (gemini_text_response_text Ht))
    as (s2 & E2 & L2).
  exists s2. unfold generate_response. cbn. rewrite E1, E2.
  split; [reflexivity|]. eapply only_logs_trans; eassumption.
Qed.

Lemma primary_down_unavailable :
  primary_unavailable Sample.primary_down (build_prompt (Py.lit "hi")).
Proof.
  right. eapply primary_status with (r := Sample.http_500);
    [reflexivity | discriminate].
Defined.

Lemma secondary_success_witness :
  exists s',
    generate_response Sample.primary_down (Py.lit "hi")
      (Sample.start Sample.empty_store) = (s', Py.Ok (Py.lit "Hi there"))
    /\ only_logs (Sample.start Sample.empty_store) s'.
Proof.
  apply (@secondary_success_returns_trimmed_text
           Sample.primary_down (Py.lit "hi") (Sample.start Sample.empty_store)
           Sample.answer_text (Py.lit "Hi there" ++ Py.nl)).
  - exact primary_down_unavailable.
  - repeat split.
  - apply text_primary; [reflexivity | discriminate].
Defined.

(** C3 as the claim words it (the reply is the response text itself) fails
    on an answer that ends with a newline: the reply has it removed. *)
Lemma secondary_untrimmed_counterexample :
  ~ (forall (w : world) (user_message : Py.str) (s : state)
            (resp : Genai.response) (t : Py.str),
       primary_unavailable w (build_prompt user_message) ->
       secondary_answers w (build_prompt user_message) resp ->
       response_text resp t ->
       exists s', generate_response w user_message s = (s', Py.Ok t)).
Proof.
  intros H.
  destruct (H Sample.primary_down (Py.lit "hi") (Sample.start Sample.empty_store)
              Sample.answer_text (Py.lit "Hi there" ++ Py.nl))
    as (s' & E).
  - exact primary_down_unavailable.
  - repeat split.
  - apply text_primary; [reflexivity | discriminate].
  - vm_compute in E. discriminate E.
Qed.

(** C4: when neither step yields a reply (each provider is unconfigured, or
    its attempt failed), the reply is the fixed literal. *)
Theorem all_providers_unavailable_literal
  (w : world) (user_message : Py.str) (s : state) :
  primary_unavailable w (build_prompt user_message) ->
  secondary_unavailable w (build_prompt user_message) ->
  exists s',
    generate_response w user_message s =
      (s', Py.Ok (Py.lit "All AI providers are currently unavailable. Please try again later."))
    /\ only_logs s s'.
Proof.
  intros Hp Hs.
  destruct (try_openrouter_unavailable s Hp) as (s1 & E1 & L1).
  destruct (try_gemini_unavailable s1 Hs) as (s2 & E2 & L2).
  exists s2. unfold generate_response. cbn. rewrite E1, E2.
  split; [reflexivity|]. eapply only_logs_trans; eassumption.
Qed.

Lemma all_providers_unavailable_witness :
  (exists s',
     generate_response Sample.offline (Py.lit "hi")
       (Sample.start Sample.empty_store) =
       (s', Py.Ok (Py.lit "All AI providers are currently unavailable. Please try again later."))
     /\ only_logs (Sample.start Sample.empty_store) s')
  /\
  (exists s',
     generate_response Sample.all_down (Py.lit "hi")
       (Sample.start Sample.empty_store) =
       (s', Py.Ok (Py.lit "All AI providers are currently unavailable. Please try again later."))
     /\ only_logs (Sample.start Sample.empty_store) s').
Proof.
  split.
  - apply (@all_providers_unavailable_literal
             Sample.offline (Py.lit "hi") (Sample.start Sample.empty_store)).
    + left. reflexivity.
    + left. reflexivity.
  - apply (@all_providers_unavailable_literal
             Sample.all_down (Py.lit "hi") (Sample.start Sample.empty_store)).
    + right. eapply primary_status with (r := Sample.http_500);
        [reflexivity | discriminate].
    + right. right. eapply secondary_raised; reflexivity.
Defined.

(* ================================================================== *)
(** * POST /chat *)
(* ================================================================== *)

Lemma fold_max_upper (xs : list Z) (x : Z) :
  (x <= fold_left Z.max xs x)%Z
  /\ Forall (fun y => (y <= fold_left Z.max xs x)%Z) xs.
Proof.
  revert x; induction xs as [|y xs IH]; intros x; simpl.
  - split; [lia | constructor].
  - destruct (IH (Z.max x y)) as [H1 H2].
    split; [lia|]. constructor; [lia | exact H2].
Qed.

Lemma fold_max_in (xs : list Z) (x : Z) : In (fold_left Z.max xs x) (x :: xs).
Proof.
  revert x; induction xs as [|y xs IH]; intros x; simpl; [now left|].
  destruct (IH (Z.max x y)) as [H | H]; [|now right; right].
  rewrite <- H. destruct (Z.max_spec x y) as [[_ ->] | [_ ->]]; auto.
Qed.

Lemma after_largest_fresh (ids : list Z) : ~ In (after_largest ids) ids.
Proof.
  destruct ids as [|x xs]; simpl; [tauto|].
  destruct (fold_max_upper xs x) as [H1 H2].
  rewrite Forall_forall in H2.
  intros [H | H]; [lia|]. apply H2 in H. lia.
Qed.

(** The id of an inserted row is not in use. *)
Lemma next_id_fresh (w : world) (ids : list Z) (i : Z) :
  next_id w ids = Py.Ok i -> ~ In i ids.
Proof.
  unfold next_id. destruct (below_largest ids).
  - intros [= <-]. apply after_largest_fresh.
  - destruct (pick_rowid w ids) as [j|e]; [|discriminate].
    destruct ((0 <? j)%Z && (j <=? INT64_MAX)%Z && negb (existsb (Z.eqb j) ids))
      eqn:E; [|discriminate].
    intros [= <-]. apply andb_true_iff in E as [_ E].
    apply negb_true_iff in E. intros Hin.
    assert (Hex : existsb (Z.eqb j) ids = true)
      by (apply existsb_exists; exists j; split; [exact Hin | apply Z.eqb_refl]).
    congruence.
Qed.

(** A table that has not reached its largest row id takes the id after the
    largest. *)
Lemma next_id_room (w : world) (ids : list Z) :
  has_room ids -> next_id w ids = Py.Ok (after_largest ids).
Proof.
  intros H. unfold next_id.
  assert (E : below_largest ids = true).
  { destruct ids as [|x xs]; [reflexivity|]. simpl.
    apply Z.ltb_lt. apply H. apply fold_max_in. }
  now rewrite E.
Qed.

(** The handler answers every request: whatever is raised inside becomes a
    500 response. *)
Lemma chat_total (w : world) (rq : request) (s : state) :
  exists resp s', chat w rq s = (s', Py.Ok resp).
Proof.
  unfold chat, try_except.
  match goal with |- context [match ?body s with _ => _ end] =>
    destruct (body s) as [s1 [resp|e]] end; cbn; eauto.
Qed.

(** A JSON object with at least one member is a true value: [data or {}]
    keeps it. *)
Lemma or_dict_object (items : list (Py.str * Py.value)) :
  Py.or_ (Py.VDict items) (Py.VDict []) = Py.VDict items.
Proof. now destruct items. Qed.

(** C5: a POST whose JSON object has no ["message"] member is answered 400
    with the error body, and the state (the two tables included) is left as
    it was. *)
Theorem chat_missing_message_400
  (w : world) (rq : request) (items : list (Py.str * Py.value)) (s : state) :
  get_json rq = Py.Ok (Py.VDict items) ->
  Py.lookup (Py.lit "message") items = None ->
  chat w rq s =
    (s, Py.Ok (mkResponse
                 (Py.VDict [ (Py.lit "error", Py.VStr (Py.lit "Missing 'message'")) ])
                 400))
  /\ chats (db (fst (chat w rq s))) = chats (db s)
  /\ messages (db (fst (chat w rq s))) = messages (db s).
Proof.
  intros Hj Hm.
  assert (E : chat w rq s =
    (s, Py.Ok (mkResponse
                 (Py.VDict [ (Py.lit "error", Py.VStr (Py.lit "Missing 'message'")) ])
                 400))).
  { unfold chat, try_except, lift. cbn [bind Monad_M].
    rewrite Hj, or_dict_object. unfold Py.contains. rewrite Hm. reflexivity. }
  rewrite E. auto.
Qed.

Lemma chat_missing_message_witness :
  chat Sample.primary_up
       (Sample.post_body [ (Py.lit "text", Py.VStr (Py.lit "hello")) ])
       (Sample.start Sample.two_chats) =
    (Sample.start Sample.two_chats,
     Py.Ok (mkResponse
              (Py.VDict [ (Py.lit "error", Py.VStr (Py.lit "Missing 'message'")) ])
              400)).
Proof.
  apply (@chat_missing_message_400 Sample.primary_up
           (Sample.post_body [ (Py.lit "text", Py.VStr (Py.lit "hello")) ])
           [ (Py.lit "text", Py.VStr (Py.lit "hello")) ]
           (Sample.start Sample.two_chats)); reflexivity.
Defined.

(** Bodies that are not objects.  A false value ([null], [false], [0], the
    empty string, the empty list) is replaced by the empty object and gets
    the 400 answer; a number or [true] is not a container, so the membership
    test raises and the answer is 500.  Nothing is stored either way. *)
Lemma chat_false_body_400 (w : world) (rq : request) (d : Py.value) (s : state) :
  get_json rq = Py.Ok d ->
  Py.truthy d = false ->
  chat w rq s =
    (s, Py.Ok (mkResponse
                 (Py.VDict [ (Py.lit "error", Py.VStr (Py.lit "Missing 'message'")) ])
                 400)).
Proof.
  intros Hj Hd. unfold chat, try_except, lift. cbn [bind Monad_M].
  rewrite Hj. unfold Py.or_. rewrite Hd. reflexivity.
Qed.

Example chat_number_body_500 :
  let rq := mkRequest (Py.Ok (Py.VInt 5)) in
  let out := chat Sample.offline rq (Sample.start Sample.two_chats) in
  option_map status (match snd out with Py.Ok r => Some r | Py.Raise _ => None end)
    = Some 500%Z
  /\ db (fst out) = Sample.two_chats.
Proof. split; reflexivity. Qed.

(** An integer [chat_id] finds no chat exactly when no chat has that id and
    the id fits the key column. *)
Lemma resolve_int_none (w : world) (z : Z) (st : store) :
  resolve w (Py.VInt z) st = Py.Ok None <->
  (forall c, In c (chats st) -> Chat.id c <> z)
  /\ (- 2 ^ 63 <= z <= 2 ^ 63 - 1)%Z.
Proof.
  cbn [resolve]. unfold query_get. rewrite <- find_chat_none, <- in_int64_iff.
  destruct (find_chat z st) as [c|]; [split; [discriminate | now intros [? _]]|].
  destruct (in_int64 z); split; try discriminate; auto.
  now intros [_ ?].
Qed.

(** The lookup of the chat in a request that opens a new conversation. *)
Lemma lookup_new_conversation
  (w : world) (items : list (Py.str * Py.value)) (s : state) :
  starts_new_conversation w items (db s) ->
  exists chat_id,
    Py.get (Py.VDict items) (Py.lit "chat_id") = Py.Ok chat_id
    /\ (if Py.truthy chat_id then Chat_query_get w chat_id else ret None) s
       = (s, Py.Ok None).
Proof.
  unfold Py.get, Chat_query_get.
  intros [H | v H Hv | v H Hv Hr]; rewrite H.
  - now exists Py.VNone.
  - exists v. now rewrite Hv.
  - exists v. now rewrite Hv, Hr.
Qed.

Lemma add_commit_chat_str (w : world) (title : Py.str) (s : state) :
  add_commit_chat w (Py.VStr title) s =
    match commit_error w (commits s) with
    | Some e => (mkState (db s) (trace s) (S (commits s)) (ticks s), Py.Raise e)
    | None =>
        match next_id w (map Chat.id (chats (db s))) with
        | Py.Raise e =>
            (mkState (db s) (trace s) (S (commits s)) (S (ticks s)), Py.Raise e)
        | Py.Ok i =>
            let c := Chat.mk i (Some title) (Some (utcnow w (ticks s))) in
            (mkState (mkStore (chats (db s) ++ [c]) (messages (db s)))
                     (trace s) (S (commits s)) (S (ticks s)), Py.Ok c)
        end
    end.
Proof.
  unfold add_commit_chat, commit, now, fresh_chat_id, insert_chat, lift.
  cbn -[next_id].
  destruct (commit_error w (commits s)); [reflexivity|].
  now destruct (next_id w _).
Qed.

Lemma add_commit_message_str
  (w : world) (chat_id : Z) (role text : Py.str) (s : state) :
  add_commit_message w chat_id role (Py.VStr text) s =
    match commit_error w (commits s) with
    | Some e => (mkState (db s) (trace s) (S (commits s)) (ticks s), Py.Raise e)
    | None =>
        match next_id w (map Message.id (messages (db s))) with
        | Py.Raise e =>
            (mkState (db s) (trace s) (S (commits s)) (S (ticks s)), Py.Raise e)
        | Py.Ok i =>
            let m := Message.mk i chat_id role text (Some (utcnow w (ticks s))) in
            (mkState (mkStore (chats (db s)) (messages (db s) ++ [m]))
                     (trace s) (S (commits s)) (S (ticks s)), Py.Ok tt)
        end
    end.
Proof.
  unfold add_commit_message, commit, now, fresh_message_id, insert_message, lift.
  cbn -[next_id].
  destruct (commit_error w (commits s)); [reflexivity|].
  now destruct (next_id w _).
Qed.

(** C6: a POST that opens a new conversation and is answered 200 has added
    exactly one chat, titled with the first 200 characters of the message and
    carrying an id not in use, and exactly two messages of that chat: the
    user's message, then the assistant's reply, which is the reply
    [generate_response] produced and the one the response carries. *)
Theorem chat_new_conversation_rows
  (w : world) (rq : request) (items : list (Py.str * Py.value))
  (user_message : Py.str) (s s' : state) (resp : response) :
  get_json rq = Py.Ok (Py.VDict items) ->
  Py.lookup (Py.lit "message") items = Some (Py.VStr user_message) ->
  starts_new_conversation w items (db s) ->
  chat w rq s = (s', Py.Ok resp) ->
  status resp = 200%Z ->
  exists (c : Chat.t) (m_user m_assistant : Message.t) (reply : Py.str),
    chats (db s') = chats (db s) ++ [c]
    /\ Chat.title c = Some (firstn 200 user_message)
    /\ ~ In (Chat.id c) (map Chat.id (chats (db s)))
    /\ messages (db s') = messages (db s) ++ [m_user; m_assistant]
    /\ Message.chat_id m_user = Chat.id c
    /\ Message.role m_user = Py.lit "user"
    /\ Message.content m_user = user_message
    /\ Message.chat_id m_assistant = Chat.id c
    /\ Message.role m_assistant = Py.lit "assistant"
    /\ Message.content m_assistant = reply
    /\ resp = jsonify (Py.VDict [ (Py.lit "chat_id", Py.VInt (Chat.id c));
                                  (Py.lit "response", Py.VStr reply) ])
    /\ exists s1 s2, generate_response w user_message s1 = (s2, Py.Ok reply).
Proof.
  intros Hj Hm Hn Hrun Hst.
  destruct (lookup_new_conversation s Hn) as (cid & Hget & Hfound).
  revert Hrun. unfold chat, try_except, lift. cbn [bind Monad_M].
  rewrite Hj, or_dict_object. unfold Py.contains, Py.getitem. rewrite Hm.
  cbn [negb]. rewrite Hget, Hfound.
  unfold Py.slice_to, format. cbn [emit ret Monad_M].
  rewrite add_commit_chat_str.
  destruct (commit_error w (commits s)) as [e|];
    [intros [= <- <-]; discriminate Hst|].
  destruct (next_id w (map Chat.id (chats (db s)))) as [i|e] eqn:Hi;
    [|cbn; intros [= <- <-]; discriminate Hst].
  cbv beta iota zeta. rewrite add_commit_message_str.
  cbn [commits db ticks trace chats messages].
  destruct (commit_error w (S (commits s))) as [e|];
    [intros [= <- <-]; discriminate Hst|].
  destruct (next_id w (map Message.id (messages (db s)))) as [iu|e];
    [|cbn; intros [= <- <-]; discriminate Hst].
  cbv beta iota zeta.
  match goal with |- context [generate_response w user_message ?s0] =>
    destruct (generate_response_returns w user_message s0)
      as (reply & s2 & E & (Ldb & Lc & Lt & _)) end.
  rewrite E. cbv beta iota zeta. rewrite add_commit_message_str.
  destruct (commit_error w (commits s2)) as [e|];
    [intros [= <- <-]; discriminate Hst|].
  destruct (next_id w (map Message.id (messages (db s2)))) as [ia|e];
    [|cbn; intros [= <- <-]; discriminate Hst].
  cbv beta iota zeta. intros [= <- <-].
  cbn [db chats messages] in *. rewrite Ldb. cbn [db chats messages] in *.
  do 4 eexists.
  split; [reflexivity|]. split; [reflexivity|].
  split; [exact (next_id_fresh _ _ Hi)|].
  split; [rewrite <- app_assoc; reflexivity|].
  repeat (split; [reflexivity|]).
  eauto.
Qed.

Lemma chat_new_conversation_witness :
  exists (c : Chat.t) (m_user m_assistant : Message.t) (reply : Py.str),
    chats (db (fst (chat Sample.primary_up Sample.hey
                         (Sample.start Sample.two_chats))))
      = chats (db (Sample.start Sample.two_chats)) ++ [c]
    /\ Chat.title c = Some (firstn 200 (Py.lit "hey"))
    /\ ~ In (Chat.id c) (map Chat.id (chats (db (Sample.start Sample.two_chats))))
    /\ messages (db (fst (chat Sample.primary_up Sample.hey
                              (Sample.start Sample.two_chats))))
         = messages (db (Sample.start Sample.two_chats)) ++ [m_user; m_assistant]
    /\ Message.chat_id m_user = Chat.id c
    /\ Message.role m_user = Py.lit "user"
    /\ Message.content m_user = Py.lit "hey"
    /\ Message.chat_id m_assistant = Chat.id c
    /\ Message.role m_assistant = Py.lit "assistant"
    /\ Message.content m_assistant = reply
    /\ jsonify (Py.VDict [ (Py.lit "chat_id", Py.VInt 3);
                           (Py.lit "response", Py.VStr (Py.lit "Hello!")) ])
       = jsonify (Py.VDict [ (Py.lit "chat_id", Py.VInt (Chat.id c));
                             (Py.lit "response", Py.VStr reply) ])
    /\ exists s1 s2,
         generate_response Sample.primary_up (Py.lit "hey") s1 = (s2, Py.Ok reply).
Proof.
  apply (@chat_new_conversation_rows
           Sample.primary_up Sample.hey
           [ (Py.lit "message", Py.VStr (Py.lit "hey")) ] (Py.lit "hey")
           (Sample.start Sample.two_chats)
           (fst (chat Sample.primary_up Sample.hey (Sample.start Sample.two_chats)))
           (jsonify (Py.VDict [ (Py.lit "chat_id", Py.VInt 3);
                                (Py.lit "response", Py.VStr (Py.lit "Hello!")) ])));
    try reflexivity.
  apply chat_id_absent. reflexivity.
Defined.

(** C10, as the code has it: when ["message"] is bound to a value that is
    neither a string nor a list ([null], a boolean, a number, an object) and
    the request opens a new conversation, the slice raises, the answer is the
    500 error body, and the two tables are left as they were. *)
Theorem chat_unsliceable_message_500
  (w : world) (rq : request) (items : list (Py.str * Py.value))
  (v : Py.value) (s : state) :
  get_json rq = Py.Ok (Py.VDict items) ->
  Py.lookup (Py.lit "message") items = Some v ->
  Py.is_str v = false ->
  Py.is_list v = false ->
  starts_new_conversation w items (db s) ->
  Py.raises (Py.slice_to 200 v)
  /\ exists s' details,
       chat w rq s =
         (s', Py.Ok (mkResponse
                       (Py.VDict [ (Py.lit "error", Py.VStr (Py.lit "Internal server error"));
                                   (Py.lit "details", Py.VStr details) ])
                       500))
       /\ db s' = db s.
Proof.
  intros Hj Hm Hs Hl Hn.
  destruct (lookup_new_conversation s Hn) as (cid & Hget & Hfound).
  assert (Hr : Py.slice_to 200 v = Py.Raise Py.TypeError)
    by (destruct v; try discriminate; reflexivity).
  split; [now exists Py.TypeError|].
  unfold chat, try_except, lift. cbn [bind Monad_M].
  rewrite Hj, or_dict_object. unfold Py.contains, Py.getitem. rewrite Hm.
  cbn [negb]. rewrite Hget, Hfound, Hr. cbn.
  do 2 eexists. split; reflexivity.
Qed.

Lemma chat_unsliceable_message_witness :
  Py.raises (Py.slice_to 200 (Py.VInt 5))
  /\ exists s' details,
       chat Sample.primary_up Sample.five (Sample.start Sample.two_chats) =
         (s', Py.Ok (mkResponse
                       (Py.VDict [ (Py.lit "error", Py.VStr (Py.lit "Internal server error"));
                                   (Py.lit "details", Py.VStr details) ])
                       500))
       /\ db s' = db (Sample.start Sample.two_chats).
Proof.
  apply (@chat_unsliceable_message_500
           Sample.primary_up Sample.five
           [ (Py.lit "message", Py.VInt 5) ] (Py.VInt 5)
           (Sample.start Sample.two_chats)); try reflexivity.
  apply chat_id_absent. reflexivity.
Defined.

(** C10 as the claim words it (the slice raises for every value that is not
    a string) fails on a JSON array: a list is sliceable, [[][:200]] is
    [[]]. *)
Lemma chat_list_message_counterexample :
  ~ (forall (w : world) (rq : request) (items : list (Py.str * Py.value))
            (v : Py.value) (s : state),
       get_json rq = Py.Ok (Py.VDict items) ->
       Py.lookup (Py.lit "message") items = Some v ->
       Py.is_str v = false ->
       starts_new_conversation w items (db s) ->
       Py.raises (Py.slice_to 200 v)
       /\ exists s' details,
            chat w rq s =
              (s', Py.Ok (mkResponse
                            (Py.VDict [ (Py.lit "error", Py.VStr (Py.lit "Internal server error"));
                                        (Py.lit "details", Py.VStr details) ])
                            500))
            /\ db s' = db s).
Proof.
  intros H.
  destruct (H Sample.offline Sample.empty_list
              [ (Py.lit "message", Py.VList []) ] (Py.VList [])
              (Sample.start Sample.empty_store)) as ((e & He) & _);
    try reflexivity.
  - apply chat_id_absent. reflexivity.
  - discriminate He.
Qed.

(** With a driver that renders a list for a text column, such a request goes
    through: it is answered 200 and its rows are stored. *)
Example chat_list_message_lenient_driver :
  let out := chat Sample.lenient Sample.empty_list (Sample.start Sample.empty_store) in
  option_map status (match snd out with Py.Ok r => Some r | Py.Raise _ => None end)
    = Some 200%Z
  /\ List.length (chats (db (fst out))) = 1%nat
  /\ List.length (messages (db (fst out))) = 2%nat.
Proof. repeat split. Qed.

(* ================================================================== *)
(** * Further properties of the provider chain *)
(* ================================================================== *)

Section ChainEvents.

Variable w : world.
Variable prompt : Py.str.

(** The OpenRouter step: its outcome and what it leaves in the trace. *)
Lemma try_openrouter_events (s : state) :
  exists r evs,
    try_openrouter w prompt s = (add_events s evs, Py.Ok r)
    /\ primary_events w prompt evs
    /\ match r with
       | None => primary_unavailable w prompt
       | Some t =>
           exists rr data,
             requests_post w (openrouter_request w prompt) = Py.Ok rr
             /\ Http.status_code rr = 200%Z
             /\ Http.json_body rr = Py.Ok data
             /\ first_choice data = Py.Ok (Some t)
       end.
Proof.
  unfold try_openrouter, primary_unavailable.
  destruct (env_set w "OPENROUTER_API_KEY") eqn:Hk.
  2:{ exists None, []. unfold add_events. rewrite app_nil_r.
      destruct s; repeat split; [now constructor | now left]. }
  unfold try_except, post, warning, lift, raise, emit. cbn.
  destruct (requests_post w _) as [rr|e] eqn:Hp; cbn.
  2:{ exists None. eexists. unfold add_events. rewrite <- !app_assoc.
      split; [reflexivity|]. split; [now constructor|].
      right. eapply primary_raised; eassumption. }
  destruct (Http.status_code rr =? 200)%Z eqn:Hs; cbn.
  2:{ exists None. eexists. unfold add_events. rewrite <- !app_assoc.
      split; [reflexivity|]. split; [now constructor|].
      right. apply Z.eqb_neq in Hs. eapply primary_status; eassumption. }
  apply Z.eqb_eq in Hs.
  destruct (Http.json_body rr) as [data|e] eqn:Hj; cbn.
  2:{ exists None. eexists. unfold add_events. rewrite <- !app_assoc.
      split; [reflexivity|]. split; [now constructor|].
      right. eapply primary_unparsed; eassumption. }
  destruct (first_choice data) as [[t|]|e] eqn:Hf; cbn.
  - exists (Some t). eexists. unfold add_events.
    split; [reflexivity|]. split; [now constructor|]. eauto 6.
  - exists None. eexists. unfold add_events.
    split; [reflexivity|]. split; [now constructor|].
    right. eapply primary_no_choice; eassumption.
  - exists None. eexists. unfold add_events. rewrite <- !app_assoc.
    split; [reflexivity|]. split; [now constructor|].
    right. eapply primary_malformed; eassumption.
Qed.

(** The Gemini step: its outcome and what it leaves in the trace. *)
Lemma try_gemini_events (s : state) :
  exists r evs,
    try_gemini w prompt s = (add_events s evs, Py.Ok r)
    /\ secondary_events w prompt evs
    /\ match r with
       | None => True
       | Some t =>
           exists resp,
             secondary_answers w prompt resp /\ gemini_text resp = Py.Ok t
       end.
Proof.
  unfold try_gemini, secondary_answers.
  destruct (HAS_GENAI w && env_set w "GEMINI_API_KEY") eqn:Hk.
  2:{ exists None, []. unfold add_events. rewrite app_nil_r.
      destruct s; repeat split. now constructor. }
  pose proof Hk as Hk'. apply andb_true_iff in Hk' as [Hh He].
  unfold try_except, new_client, call_generate_content, warning, lift, raise, emit.
  cbn.
  destruct (genai_Client w _) as [e|] eqn:Hc; cbn.
  { exists None. eexists. unfold add_events. rewrite <- !app_assoc.
    split; [reflexivity|]. split; [now constructor | exact I]. }
  destruct (generate_content w _ _ _) as [resp|e] eqn:Hg; cbn.
  2:{ exists None. eexists. unfold add_events. rewrite <- !app_assoc.
      split; [reflexivity|]. split; [now constructor | exact I]. }
  destruct (gemini_text resp) as [t|e] eqn:Ht; cbn.
  - exists (Some t). eexists. unfold add_events. rewrite <- !app_assoc.
    split; [reflexivity|]. split; [now constructor|]. eauto 8.
  - exists None. eexists. unfold add_events. rewrite <- !app_assoc.
    split; [reflexivity|]. split; [now constructor | exact I].
Qed.

End ChainEvents.

Lemma warnings_filtered (f : event -> bool) (logs : list event) :
  (forall ev, is_warning ev = true -> f ev = false) ->
  forallb is_warning logs = true ->
  filter f logs = [].
Proof.
  intros Hf. induction logs as [|ev logs IH]; simpl; [reflexivity|].
  intros H. apply andb_true_iff in H as [Hev Hl].
  rewrite (Hf ev Hev). auto.
Qed.

Lemma warning_not_post ev : is_warning ev = true -> is_post ev = false.
Proof. now destruct ev. Qed.

Lemma warning_not_secondary ev :
  is_warning ev = true -> is_secondary_call ev = false.
Proof. now destruct ev. Qed.

Lemma warning_not_call ev : is_warning ev = true -> is_call ev = false.
Proof. now destruct ev. Qed.

Lemma primary_events_posts (w : world) (p : Py.str) (evs : list event) :
  primary_events w p evs ->
  filter is_post evs =
    (if env_set w "OPENROUTER_API_KEY" then [Post (openrouter_request w p)] else [])
  /\ filter is_secondary_call evs = [].
Proof.
  intros [Hk | logs Hk Hl]; rewrite Hk; simpl; [easy|].
  now rewrite (warnings_filtered _ _ warning_not_post Hl),
              (warnings_filtered _ _ warning_not_secondary Hl).
Qed.

Lemma secondary_events_calls (w : world) (p : Py.str) (evs : list event) :
  secondary_events w p evs ->
  filter is_post evs = []
  /\ (filter is_secondary_call evs = []
      \/ filter is_secondary_call evs = [ClientNew (env_text w "GEMINI_API_KEY")]
      \/ filter is_secondary_call evs =
           [ClientNew (env_text w "GEMINI_API_KEY");
            GenerateContent (env_text w "GEMINI_API_KEY") GEMINI_MODEL p])
  /\ (HAS_GENAI w && env_set w "GEMINI_API_KEY" = false -> evs = []).
Proof.
  intros [Hk | logs Hk Hl | logs Hk Hl]; simpl;
    rewrite ?(warnings_filtered _ _ warning_not_post Hl),
            ?(warnings_filtered _ _ warning_not_secondary Hl);
    repeat split; auto; congruence.
Qed.

(** The chain: where the reply comes from and what is left in the trace. *)
Lemma generate_response_events (w : world) (user_message : Py.str) (s : state) :
  exists reply ev1 ev2,
    generate_response w user_message s = (add_events s (ev1 ++ ev2), Py.Ok reply)
    /\ primary_events w (build_prompt user_message) ev1
    /\ ((ev2 = []
         /\ exists rr data,
              requests_post w (openrouter_request w (build_prompt user_message))
                = Py.Ok rr
              /\ Http.status_code rr = 200%Z
              /\ Http.json_body rr = Py.Ok data
              /\ first_choice data = Py.Ok (Some reply))
        \/ (primary_unavailable w (build_prompt user_message)
            /\ secondary_events w (build_prompt user_message) ev2
            /\ ((exists resp,
                   secondary_answers w (build_prompt user_message) resp
                   /\ gemini_text resp = Py.Ok reply)
                \/ reply = UNAVAILABLE))).
Proof.
  unfold generate_response. cbn.
  destruct (try_openrouter_events w (build_prompt user_message) s)
    as ([t|] & ev1 & E1 & P1 & R1); rewrite E1.
  - exists t, ev1, []. rewrite app_nil_r. split; [reflexivity|].
    split; [exact P1|]. left. split; [reflexivity | exact R1].
  - destruct (try_gemini_events w (build_prompt user_message) (add_events s ev1))
      as ([t|] & ev2 & E2 & P2 & R2); rewrite E2.
    + exists t, ev1, ev2. unfold add_events at 1 2. cbn. rewrite <- app_assoc.
      split; [reflexivity|]. split; [exact P1|]. right. auto.
    + exists UNAVAILABLE, ev1, ev2. unfold add_events at 1 2. cbn.
      rewrite <- app_assoc.
      split; [reflexivity|]. split; [exact P1|]. right. auto.
Qed.

(** X1: one invocation sends exactly one POST to OpenRouter when the
    credential is set, carrying the built prompt, and none otherwise. *)
Theorem generate_response_posts_exactly_once
  (w : world) (user_message : Py.str) (s : state) :
  exists reply evs,
    generate_response w user_message s = (add_events s evs, Py.Ok reply)
    /\ filter is_post evs =
         (if env_set w "OPENROUTER_API_KEY"
          then [Post (openrouter_request w (build_prompt user_message))]
          else []).
Proof.
  destruct (generate_response_events w user_message s)
    as (reply & ev1 & ev2 & E & P1 & H).
  exists reply, (ev1 ++ ev2). split; [exact E|].
  rewrite filter_app. destruct (primary_events_posts P1) as [-> _].
  destruct H as [[-> _] | (_ & P2 & _)].
  - now rewrite app_nil_r.
  - destruct (secondary_events_calls P2) as [-> _]. now rewrite app_nil_r.
Qed.

(** X2: one invocation builds the Gemini client at most once and calls
    [generate_content] at most once, with the fixed model and the built
    prompt; it does neither when the SDK is missing or the credential is
    unset. *)
Theorem generate_response_gemini_at_most_once
  (w : world) (user_message : Py.str) (s : state) :
  exists reply evs,
    generate_response w user_message s = (add_events s evs, Py.Ok reply)
    /\ (filter is_secondary_call evs = []
        \/ filter is_secondary_call evs = [ClientNew (env_text w "GEMINI_API_KEY")]
        \/ filter is_secondary_call evs =
             [ClientNew (env_text w "GEMINI_API_KEY");
              GenerateContent (env_text w "GEMINI_API_KEY") GEMINI_MODEL
                              (build_prompt user_message)])
    /\ (HAS_GENAI w && env_set w "GEMINI_API_KEY" = false ->
        filter is_secondary_call evs = []).
Proof.
  destruct (generate_response_events w user_message s)
    as (reply & ev1 & ev2 & E & P1 & H).
  exists reply, (ev1 ++ ev2). split; [exact E|].
  rewrite filter_app. destruct (primary_events_posts P1) as [_ ->]. simpl.
  destruct H as [[-> _] | (_ & P2 & _)]; [auto|].
  destruct (secondary_events_calls P2) as (_ & H2 & H3).
  split; [exact H2|]. intros Hd. now rewrite (H3 Hd).
Qed.

(** X3: Gemini is consulted only when the OpenRouter step yielded no
    reply. *)
Theorem gemini_consulted_only_after_primary_failed
  (w : world) (user_message : Py.str) (s s' : state) (reply : Py.str) :
  generate_response w user_message s = (s', Py.Ok reply) ->
  existsb is_secondary_call (skipn (List.length (trace s)) (trace s')) = true ->
  primary_unavailable w (build_prompt user_message).
Proof.
  intros Hrun Hcall.
  destruct (generate_response_events w user_message s)
    as (reply' & ev1 & ev2 & E & P1 & H).
  rewrite E in Hrun. injection Hrun as <- _.
  unfold add_events in Hcall. cbn in Hcall.
  rewrite skipn_app, skipn_all, Nat.sub_diag in Hcall. cbn in Hcall.
  destruct H as [[-> _] | (Hp & _)]; [|exact Hp].
  rewrite app_nil_r in Hcall.
  destruct (primary_events_posts P1) as [_ Hn].
  assert (Hf : existsb is_secondary_call ev1 = false).
  { clear -Hn. induction ev1 as [|ev l IH]; simpl in *; [reflexivity|].
    destruct (is_secondary_call ev); [discriminate | auto]. }
  congruence.
Qed.

Lemma gemini_consulted_witness :
  primary_unavailable Sample.primary_down (build_prompt (Py.lit "hi")).
Proof.
  apply (@gemini_consulted_only_after_primary_failed
           Sample.primary_down (Py.lit "hi") (Sample.start Sample.empty_store)
           (fst (generate_response Sample.primary_down (Py.lit "hi")
                   (Sample.start Sample.empty_store)))
           (Py.lit "Hi there")); reflexivity.
Defined.

(** X4: on a status other than 200 the step logs the response text, then the
    fall-back warning with the message of the exception it raised,
    "OpenRouter returned status <code>", and the chain goes on. *)
Theorem non_200_logs_two_warnings
  (w : world) (user_message : Py.str) (s : state) (r : Http.response) :
  env_set w "OPENROUTER_API_KEY" = true ->
  requests_post w (openrouter_request w (build_prompt user_message)) = Py.Ok r ->
  Http.status_code r <> 200%Z ->
  exists reply rest,
    generate_response w user_message s =
      (add_events s
         ([ Post (openrouter_request w (build_prompt user_message));
            LogWarning "OpenRouter API error: %s" (Http.text r);
            LogWarning "OpenRouter failed, falling back to Gemini: %s"
              (Py.lit "OpenRouter returned status "
               ++ Py.str_of_int (Http.status_code r)) ] ++ rest),
       Py.Ok reply)
    /\ filter is_post rest = [].
Proof.
  intros Hk Hp Hs. apply Z.eqb_neq in Hs.
  unfold generate_response, try_openrouter. rewrite Hk.
  unfold try_except, post, warning, lift, raise, emit. cbn.
  rewrite Hp. cbn. rewrite Hs. cbn.
  match goal with |- context [try_gemini w ?p ?s0] =>
    destruct (try_gemini_events w p s0) as (r2 & ev2 & E2 & P2 & _) end.
  rewrite E2. destruct (secondary_events_calls P2) as (Hn & _).
  destruct r2 as [t|]; [exists t | exists UNAVAILABLE]; exists ev2;
    unfold add_events; cbn; rewrite <- !app_assoc; cbn; auto.
Qed.

Lemma non_200_logs_witness :
  exists reply rest,
    generate_response Sample.primary_down (Py.lit "hi")
      (Sample.start Sample.empty_store) =
      (add_events (Sample.start Sample.empty_store)
         ([ Post (openrouter_request Sample.primary_down (build_prompt (Py.lit "hi")));
            LogWarning "OpenRouter API error: %s" (Py.lit "upstream error");
            LogWarning "OpenRouter failed, falling back to Gemini: %s"
              (Py.lit "OpenRouter returned status 500") ] ++ rest),
       Py.Ok reply)
    /\ filter is_post rest = [].
Proof.
  apply (@non_200_logs_two_warnings Sample.primary_down (Py.lit "hi")
           (Sample.start Sample.empty_store) Sample.http_500);
    [reflexivity | reflexivity | discriminate].
Defined.




Lemma strip_is_trimmed (t : Py.str) : trimmed (Py.strip t).
Proof. exact (strip_trimmed t). Qed.

Lemma strip_method_strip (v : Py.value) (t : Py.str) :
  Py.strip_method v = Py.Ok t -> exists u, t = Py.strip u.
Proof. destruct v; simpl; try discriminate. intros [= <-]. eauto. Qed.

Lemma first_choice_strip (data : Py.value) (t : Py.str) :
  first_choice data = Py.Ok (Some t) -> exists u, t = Py.strip u.
Proof.
  unfold first_choice. cbn [bind ret Monad_result].
  repeat match goal with
         | |- context [match ?x with _ => _ end] =>
             match x with
             | Py.strip_method _ => fail 1
             | _ => destruct x; try discriminate
             end
         end.
  destruct (Py.strip_method _) as [u|] eqn:E; [|discriminate].
  intros [= <-]. eapply strip_method_strip; eassumption.
Qed.

Lemma gemini_text_strip (resp : Genai.response) (t : Py.str) :
  gemini_text resp = Py.Ok t -> exists u, t = Py.strip u.
Proof.
  unfold gemini_text. cbn [bind ret Monad_result].
  destruct (getattr_text resp) as [v|]; [|discriminate].
  destruct (negb (Py.truthy v)).
  - destruct (candidates0_output resp) as [v'|]; [|discriminate].
    apply strip_method_strip.
  - apply strip_method_strip.
Qed.

Lemma UNAVAILABLE_trimmed : trimmed UNAVAILABLE.
Proof.
  split.
  - intros c rest H. vm_compute in H. now injection H as <- _.
  - intros c init H. apply (f_equal (@rev N)) in H.
    rewrite rev_app_distr in H. vm_compute in H. simpl in H.
    now injection H as <- _.
Qed.

(** X6: whatever the providers answer, the reply neither starts nor ends
    with whitespace. *)
Theorem generate_response_reply_trimmed
  (w : world) (user_message : Py.str) (s : state) :
  exists reply s',
    generate_response w user_message s = (s', Py.Ok reply) /\ trimmed reply.
Proof.
  destruct (generate_response_events w user_message s)
    as (reply & ev1 & ev2 & E & _ & H).
  exists reply, (add_events s (ev1 ++ ev2)). split; [exact E|].
  destruct H as [(_ & rr & data & _ & _ & _ & Hf)
                | (_ & _ & [(resp & _ & Hg) | ->])].
  - destruct (first_choice_strip _ Hf) as (u & ->). apply strip_is_trimmed.
  - destruct (gemini_text_strip _ Hg) as (u & ->). apply strip_is_trimmed.
  - apply UNAVAILABLE_trimmed.
Qed.

(* ================================================================== *)
(** * Further properties of POST /chat *)
(* ================================================================== *)

Arguments turn : simpl never.
Arguments on_error : simpl never.

Lemma try_bind_ok {A B} (c : M A) (k : A -> M B) (h : Py.exn -> M B)
      (s s1 : state) (a : A) :
  c s = (s1, Py.Ok a) ->
  try_except (bind c k) h s = try_except (k a) h s1.
Proof. intros H. unfold try_except. cbn. now rewrite H. Qed.

Lemma try_bind_raise {A B} (c : M A) (k : A -> M B) (h : Py.exn -> M B)
      (s s1 : state) (e : Py.exn) :
  c s = (s1, Py.Raise e) ->
  try_except (bind c k) h s = h e s1.
Proof. intros H. unfold try_except. cbn. now rewrite H. Qed.

Lemma on_error_run (w : world) (e : Py.exn) (s : state) :
  on_error w e s =
    (add_events s [LogException "Chat error" e],
     Py.Ok (mkResponse
              (Py.VDict [ (Py.lit "error", Py.VStr (Py.lit "Internal server error"));
                          (Py.lit "details", Py.VStr (str_exn w e)) ])
              500)).
Proof. reflexivity. Qed.

Lemma add_commit_chat_run (w : world) (title : Py.value) (s : state) :
  add_commit_chat w title s =
    match bind_text w title with
    | Py.Raise e => (s, Py.Raise e)
    | Py.Ok t =>
        match commit_error w (commits s) with
        | Some e => (refused_commit s, Py.Raise e)
        | None =>
            match next_id w (map Chat.id (chats (db s))) with
            | Py.Raise e => (no_row_id s, Py.Raise e)
            | Py.Ok i => (after_chat w s i t, Py.Ok (stored_chat w s i t))
            end
        end
    end.
Proof.
  unfold add_commit_chat, commit, now, fresh_chat_id, insert_chat, lift.
  cbn -[next_id].
  destruct (bind_text w title) as [t|e]; [|reflexivity].
  destruct (commit_error w (commits s)); [reflexivity|].
  now destruct (next_id w _).
Qed.

Lemma add_commit_message_run
  (w : world) (chat_id : Z) (role : Py.str) (content : Py.value) (s : state) :
  add_commit_message w chat_id role content s =
    match bind_text w content with
    | Py.Raise e => (s, Py.Raise e)
    | Py.Ok None => (s, Py.Raise Py.IntegrityError)
    | Py.Ok (Some text) =>
        match commit_error w (commits s) with
        | Some e => (refused_commit s, Py.Raise e)
        | None =>
            match next_id w (map Message.id (messages (db s))) with
            | Py.Raise e => (no_row_id s, Py.Raise e)
            | Py.Ok i => (after_message w s i chat_id role text, Py.Ok tt)
            end
        end
    end.
Proof.
  unfold add_commit_message, commit, now, fresh_message_id, insert_message,
         lift, raise. cbn -[next_id].
  destruct (bind_text w content) as [[t|]|e]; try reflexivity.
  destruct (commit_error w (commits s)); [reflexivity|].
  now destruct (next_id w _).
Qed.

(** [chat] is its prelude followed by the turn, under the [except] clause. *)
Lemma chat_unfold (w : world) (rq : request) :
  chat w rq =
  try_except
    (d <- lift (get_json rq) ;;
     let data := Py.or_ d (Py.VDict []) in
     has <- lift (Py.contains (Py.lit "message") data) ;;
     if negb has then
       ret (mkResponse
              (Py.VDict [ (Py.lit "error", Py.VStr (Py.lit "Missing 'message'")) ])
              400)
     else
       user_message <- lift (Py.getitem data (Py.lit "message")) ;;
       chat_id <- lift (Py.get data (Py.lit "chat_id")) ;;
       found <- (if Py.truthy chat_id then Chat_query_get w chat_id else ret None) ;;
       chat <- match found with
               | Some c => ret c
               | None =>
                   title <- lift (Py.slice_to 200 user_message) ;;
                   add_commit_chat w title
               end ;;
       turn w chat user_message)
    (on_error w).
Proof. reflexivity. Qed.

(** The turn on a string message, commit by commit. *)
Lemma turn_run_str (w : world) (c : Chat.t) (msg : Py.str) (s : state) :
  try_except (turn w c (Py.VStr msg)) (on_error w) s =
    match commit_error w (commits s) with
    | Some e => on_error w e (refused_commit s)
    | None =>
        match next_id w (map Message.id (messages (db s))) with
        | Py.Raise e => on_error w e (no_row_id s)
        | Py.Ok iu =>
            let s1 := after_message w s iu (Chat.id c) (Py.lit "user") msg in
            match generate_response w msg s1 with
            | (s2, Py.Ok reply) =>
                match commit_error w (commits s2) with
                | Some e => on_error w e (refused_commit s2)
                | None =>
                    match next_id w (map Message.id (messages (db s2))) with
                    | Py.Raise e => on_error w e (no_row_id s2)
                    | Py.Ok ia =>
                        (after_message w s2 ia (Chat.id c) (Py.lit "assistant") reply,
                         Py.Ok (jsonify
                                  (Py.VDict
                                     [ (Py.lit "chat_id", Py.VInt (Chat.id c));
                                       (Py.lit "response", Py.VStr reply) ])))
                    end
                end
            | (s2, Py.Raise e) => on_error w e s2
            end
        end
    end.
Proof.
  unfold turn, try_except. cbn [bind Monad_M].
  rewrite add_commit_message_run. cbn [bind_text].
  destruct (commit_error w (commits s)) as [e|]; [reflexivity|].
  destruct (next_id w (map Message.id (messages (db s)))) as [iu|e];
    [|reflexivity].
  unfold format. cbv zeta.
  destruct (generate_response w msg _) as [s2 [reply|e]]; [|reflexivity].
  rewrite add_commit_message_run. cbn [bind_text].
  destruct (commit_error w (commits s2)); [reflexivity|].
  now destruct (next_id w (map Message.id (messages (db s2)))).
Qed.

(** What one turn does to the store and the trace, whatever the message
    is. *)
Lemma turn_effect (w : world) (c : Chat.t) (um : Py.value) (s : state) :
  exists resp s' ms evs,
    try_except (turn w c um) (on_error w) s = (s', Py.Ok resp)
    /\ chats (db s') = chats (db s)
    /\ messages (db s') = messages (db s) ++ ms
    /\ turn_rows (Chat.id c) ms
    /\ ((status resp = 200%Z /\ List.length ms = 2%nat)
        \/ (status resp = 500%Z /\ (List.length ms <= 1)%nat))
    /\ trace s' = trace s ++ evs
    /\ (ms = [] -> filter is_call evs = []).
Proof.
  assert (Hfail : forall e s0,
            db s0 = db s -> trace s0 = trace s ->
            exists resp s' ms evs,
              on_error w e s0 = (s', Py.Ok resp)
              /\ chats (db s') = chats (db s)
              /\ messages (db s') = messages (db s) ++ ms
              /\ turn_rows (Chat.id c) ms
              /\ ((status resp = 200%Z /\ List.length ms = 2%nat)
                  \/ (status resp = 500%Z /\ (List.length ms <= 1)%nat))
              /\ trace s' = trace s ++ evs
              /\ (ms = [] -> filter is_call evs = [])).
  { intros e s0 Hdb Htr. rewrite on_error_run. do 2 eexists.
    exists [], [LogException "Chat error" e].
    split; [reflexivity|]. unfold add_events. cbn.
    rewrite Hdb, Htr, app_nil_r. repeat split; auto. }
  unfold turn, try_except. cbn [bind Monad_M].
  rewrite add_commit_message_run.
  destruct (bind_text w um) as [[t|]|e]; [|now apply Hfail|now apply Hfail].
  destruct (commit_error w (commits s)) as [e|]; [now apply Hfail|].
  destruct (next_id w (map Message.id (messages (db s)))) as [iu|e];
    [|now apply Hfail].
  clear Hfail.
  match goal with |- context [generate_response w ?m ?s0] =>
    destruct (generate_response_returns w m s0)
      as (reply & s2 & E & (Ldb & Lc & Lt & evs & Ltr)) end.
  rewrite E. rewrite add_commit_message_run. cbn [bind_text].
  unfold after_message in Ldb, Ltr. cbn in Ldb, Ltr.
  assert (Hfail2 : forall e s0,
            db s0 = db s2 -> trace s0 = trace s2 ->
            exists resp s' ms evs0,
              on_error w e s0 = (s', Py.Ok resp)
              /\ chats (db s') = chats (db s)
              /\ messages (db s') = messages (db s) ++ ms
              /\ turn_rows (Chat.id c) ms
              /\ ((status resp = 200%Z /\ List.length ms = 2%nat)
                  \/ (status resp = 500%Z /\ (List.length ms <= 1)%nat))
              /\ trace s' = trace s ++ evs0
              /\ (ms = [] -> filter is_call evs0 = [])).
  { intros e s0 Hdb Htr. rewrite on_error_run. do 2 eexists.
    exists [stored_message w s iu (Chat.id c) (Py.lit "user") t].
    exists (evs ++ [LogException "Chat error" e]).
    split; [reflexivity|]. unfold add_events. cbn.
    rewrite Hdb, Htr, Ldb, Ltr, <- app_assoc. cbn.
    repeat split; auto. discriminate. }
  destruct (commit_error w (commits s2)) as [e|]; [now apply Hfail2|].
  destruct (next_id w (map Message.id (messages (db s2)))) as [ia|e];
    [|now apply Hfail2].
  do 2 eexists.
  exists [stored_message w s iu (Chat.id c) (Py.lit "user") t;
          stored_message w s2 ia (Chat.id c) (Py.lit "assistant") reply].
  exists evs.
  split; [reflexivity|]. unfold after_message. cbn.
  rewrite Ldb, Ltr. cbn. rewrite <- app_assoc. cbn.
  repeat split; auto. discriminate.
Qed.

Lemma try_lift_ok {A B} (a : A) (k : A -> M B) (h : Py.exn -> M B) (s : state) :
  try_except (bind (lift (Py.Ok a)) k) h s = try_except (k a) h s.
Proof. reflexivity. Qed.

Lemma try_lift_raise {A B} (e : Py.exn) (k : A -> M B) (h : Py.exn -> M B)
      (s : state) :
  try_except (bind (lift (Py.Raise e)) k) h s = h e s.
Proof. reflexivity. Qed.

Lemma try_ret {A B} (a : A) (k : A -> M B) (h : Py.exn -> M B) (s : state) :
  try_except (bind (ret a) k) h s = try_except (k a) h s.
Proof. reflexivity. Qed.

Lemma try_bind_assoc {A B C} (c : M A) (f : A -> M B) (k : B -> M C)
      (h : Py.exn -> M C) (s : state) :
  try_except (bind (bind c f) k) h s =
  try_except (bind c (fun a => bind (f a) k)) h s.
Proof.
  unfold try_except. cbn. destruct (c s) as [s1 [a|e]]; reflexivity.
Qed.

Lemma try_query {B} (w : world) (key : Py.value) (k : option Chat.t -> M B)
      (h : Py.exn -> M B) (s : state) :
  try_except (bind (Chat_query_get w key) k) h s =
    match resolve w key (db s) with
    | Py.Ok found => try_except (k found) h s
    | Py.Raise e => h e s
    end.
Proof.
  unfold try_except, Chat_query_get. cbn.
  destruct (resolve w key (db s)); reflexivity.
Qed.

Lemma try_add_chat {B} (w : world) (title : Py.value) (k : Chat.t -> M B)
      (h : Py.exn -> M B) (s : state) :
  try_except (bind (add_commit_chat w title) k) h s =
    match bind_text w title with
    | Py.Raise e => h e s
    | Py.Ok t =>
        match commit_error w (commits s) with
        | Some e => h e (refused_commit s)
        | None =>
            match next_id w (map Chat.id (chats (db s))) with
            | Py.Raise e => h e (no_row_id s)
            | Py.Ok i =>
                try_except (k (stored_chat w s i t)) h (after_chat w s i t)
            end
        end
    end.
Proof.
  unfold try_except. cbn [bind Monad_M]. rewrite add_commit_chat_run.
  destruct (bind_text w title) as [t|e]; [|reflexivity].
  destruct (commit_error w (commits s)); [reflexivity|].
  now destruct (next_id w (map Chat.id (chats (db s)))).
Qed.

Lemma resolve_found (w : world) (key : Py.value) (st : store) (c : Chat.t) :
  resolve w key st = Py.Ok (Some c) -> In c (chats st).
Proof.
  assert (Hq : forall z, query_get z st = Py.Ok (Some c) -> In c (chats st)).
  { intros z H. apply query_get_some in H. now apply find_chat_some in H. }
  destruct key; cbn [resolve bind ret Monad_result];
    try (destruct (adapt_int w _) as [[z|]|]; try discriminate);
    eauto.
Qed.

(** What one request does to the store and to the trace. *)
Lemma chat_effect (w : world) (rq : request) (s : state) :
  exists resp s' cs ms,
    chat w rq s = (s', Py.Ok resp)
    /\ chats (db s') = chats (db s) ++ cs
    /\ messages (db s') = messages (db s) ++ ms
    /\ (cs = []
        \/ exists c, cs = [c]
             /\ ~ In (Chat.id c) (map Chat.id (chats (db s))))
    /\ (exists cid,
          (ms = [] \/ In cid (map Chat.id (chats (db s) ++ cs)))
          /\ turn_rows cid ms)
    /\ ((status resp = 400%Z /\ s' = s)
        \/ (status resp = 200%Z /\ List.length ms = 2%nat)
        \/ (status resp = 500%Z /\ (List.length ms <= 1)%nat))
    /\ (exists evs,
          trace s' = trace s ++ evs /\ (ms = [] -> filter is_call evs = [])).
Proof.
  assert (Hfail : forall e s0,
            db s0 = db s -> trace s0 = trace s ->
            exists resp s' cs ms,
              on_error w e s0 = (s', Py.Ok resp)
              /\ chats (db s') = chats (db s) ++ cs
              /\ messages (db s') = messages (db s) ++ ms
              /\ (cs = []
                  \/ exists c, cs = [c]
                       /\ ~ In (Chat.id c) (map Chat.id (chats (db s))))
              /\ (exists cid,
                    (ms = [] \/ In cid (map Chat.id (chats (db s) ++ cs)))
                    /\ turn_rows cid ms)
              /\ ((status resp = 400%Z /\ s' = s)
                  \/ (status resp = 200%Z /\ List.length ms = 2%nat)
                  \/ (status resp = 500%Z /\ (List.length ms <= 1)%nat))
              /\ (exists evs,
                    trace s' = trace s ++ evs
                    /\ (ms = [] -> filter is_call evs = []))).
  { intros e s0 Hdb Htr. rewrite on_error_run. do 2 eexists. exists [], [].
    split; [reflexivity|]. unfold add_events. cbn.
    rewrite Hdb, Htr, !app_nil_r.
    repeat split; auto.
    - exists 0%Z. split; [now left | exact I].
    - now exists [LogException "Chat error" e]. }
  assert (Hturn : forall c um s1 cs,
            chats (db s1) = chats (db s) ++ cs ->
            messages (db s1) = messages (db s) ->
            trace s1 = trace s ->
            In (Chat.id c) (map Chat.id (chats (db s) ++ cs)) ->
            (cs = []
             \/ exists c0, cs = [c0]
                  /\ ~ In (Chat.id c0) (map Chat.id (chats (db s)))) ->
            exists resp s' cs ms,
              try_except (turn w c um) (on_error w) s1 = (s', Py.Ok resp)
              /\ chats (db s') = chats (db s) ++ cs
              /\ messages (db s') = messages (db s) ++ ms
              /\ (cs = []
                  \/ exists c, cs = [c]
                       /\ ~ In (Chat.id c) (map Chat.id (chats (db s))))
              /\ (exists cid,
                    (ms = [] \/ In cid (map Chat.id (chats (db s) ++ cs)))
                    /\ turn_rows cid ms)
              /\ ((status resp = 400%Z /\ s' = s)
                  \/ (status resp = 200%Z /\ List.length ms = 2%nat)
                  \/ (status resp = 500%Z /\ (List.length ms <= 1)%nat))
              /\ (exists evs,
                    trace s' = trace s ++ evs
                    /\ (ms = [] -> filter is_call evs = []))).
  { intros c um s1 cs Hc Hm Ht Hin Hcs.
    destruct (turn_effect w c um s1)
      as (resp & s' & ms & evs & E & Ec & Em & Er & Est & Etr & Ecall).
    exists resp, s', cs, ms. rewrite E, Ec, Em, Hc, Hm.
    repeat split; auto.
    - exists (Chat.id c). split; [now right | exact Er].
    - exists evs. now rewrite Etr, Ht. }
  rewrite chat_unfold.
  destruct (get_json rq) as [d|e];
    [rewrite try_lift_ok | rewrite try_lift_raise; now apply Hfail].
  cbv beta zeta.
  destruct (Py.contains (Py.lit "message") (Py.or_ d (Py.VDict []))) as [has|e];
    [rewrite try_lift_ok | rewrite try_lift_raise; now apply Hfail].
  destruct has; cbn [negb].
  2:{ do 2 eexists. exists [], []. split; [reflexivity|].
      rewrite !app_nil_r. repeat split; auto.
      - exists 0%Z. split; [now left | exact I].
      - exists []. now rewrite app_nil_r. }
  destruct (Py.getitem (Py.or_ d (Py.VDict [])) (Py.lit "message")) as [um|e];
    [rewrite try_lift_ok | rewrite try_lift_raise; now apply Hfail].
  destruct (Py.get (Py.or_ d (Py.VDict [])) (Py.lit "chat_id")) as [cid|e];
    [rewrite try_lift_ok | rewrite try_lift_raise; now apply Hfail].
  assert (Hnew :
    exists resp s' cs ms,
      try_except
        (chat <- (title <- lift (Py.slice_to 200 um) ;; add_commit_chat w title) ;;
         turn w chat um) (on_error w) s = (s', Py.Ok resp)
      /\ chats (db s') = chats (db s) ++ cs
      /\ messages (db s') = messages (db s) ++ ms
      /\ (cs = []
          \/ exists c, cs = [c]
               /\ ~ In (Chat.id c) (map Chat.id (chats (db s))))
      /\ (exists cid,
            (ms = [] \/ In cid (map Chat.id (chats (db s) ++ cs)))
            /\ turn_rows cid ms)
      /\ ((status resp = 400%Z /\ s' = s)
          \/ (status resp = 200%Z /\ List.length ms = 2%nat)
          \/ (status resp = 500%Z /\ (List.length ms <= 1)%nat))
      /\ (exists evs,
            trace s' = trace s ++ evs /\ (ms = [] -> filter is_call evs = []))).
  { rewrite try_bind_assoc.
    destruct (Py.slice_to 200 um) as [title|e];
      [rewrite try_lift_ok | rewrite try_lift_raise; now apply Hfail].
    rewrite try_add_chat.
    destruct (bind_text w title) as [t|e]; [|now apply Hfail].
    destruct (commit_error w (commits s)) as [e|]; [now apply Hfail|].
    destruct (next_id w (map Chat.id (chats (db s)))) as [i|e] eqn:Hi;
      [|now apply Hfail].
    apply Hturn with (cs := [stored_chat w s i t]); auto.
    - rewrite map_app, in_app_iff. right. now left.
    - right. eexists. split; [reflexivity|]. exact (next_id_fresh _ _ Hi). }
  destruct (Py.truthy cid).
  - rewrite try_query.
    destruct (resolve w cid (db s)) as [[c|]|e] eqn:Hr; [| |now apply Hfail].
    + rewrite try_ret. apply Hturn with (cs := []); auto.
      * now rewrite app_nil_r.
      * rewrite app_nil_r. apply in_map. eapply resolve_found; eassumption.
    + exact Hnew.
  - rewrite try_ret. exact Hnew.
Qed.

(** X7: POST /chat answers every request, malformed ones included, and with
    one of three statuses: 200, 400 or 500.  Nothing raised inside reaches
    the caller. *)
Theorem chat_answers_200_400_500 (w : world) (rq : request) (s : state) :
  exists resp s',
    chat w rq s = (s', Py.Ok resp)
    /\ (status resp = 200%Z \/ status resp = 400%Z \/ status resp = 500%Z).
Proof.
  destruct (chat_effect w rq s)
    as (resp & s' & cs & ms & E & _ & _ & _ & _ & Hst & _).
  exists resp, s'. split; [exact E|]. tauto.
Qed.

(** X8: POST /chat only appends: the rows already stored stay as they are,
    in place; at most one chat and at most two messages are added, and an
    answer 200 means exactly two messages were added. *)
Theorem chat_only_appends (w : world) (rq : request) (s : state) :
  exists resp s' cs ms,
    chat w rq s = (s', Py.Ok resp)
    /\ chats (db s') = chats (db s) ++ cs
    /\ messages (db s') = messages (db s) ++ ms
    /\ (List.length cs <= 1)%nat
    /\ (List.length ms <= 2)%nat
    /\ (status resp = 200%Z -> List.length ms = 2%nat).
Proof.
  destruct (chat_effect w rq s)
    as (resp & s' & cs & ms & E & Hc & Hm & Hcs & (cid & _ & Hr) & Hst & _).
  exists resp, s', cs, ms. repeat split; auto.
  - destruct Hcs as [-> | (c & -> & _)]; simpl; lia.
  - destruct ms as [|m1 [|m2 [|m3 ms]]]; simpl in *; lia || contradiction.
  - intros H200. destruct Hst as [[H _] | [[_ H] | [H _]]]; auto; congruence.
Qed.

(** X9: an answer 400 means the request changed nothing: the state is the
    one before the request. *)
Theorem chat_400_changes_nothing
  (w : world) (rq : request) (s s' : state) (resp : response) :
  chat w rq s = (s', Py.Ok resp) ->
  status resp = 400%Z ->
  s' = s.
Proof.
  intros Hrun H400.
  destruct (chat_effect w rq s)
    as (resp' & s'' & cs & ms & E & _ & _ & _ & _ & Hst & _).
  rewrite E in Hrun. injection Hrun as <- <-.
  destruct Hst as [[_ H] | [[H _] | [H _]]]; [exact H | congruence | congruence].
Qed.

Lemma chat_400_witness :
  fst (chat Sample.primary_up
         (Sample.post_body [ (Py.lit "text", Py.VStr (Py.lit "hello")) ])
         (Sample.start Sample.two_chats))
  = Sample.start Sample.two_chats.
Proof.
  apply (@chat_400_changes_nothing Sample.primary_up
           (Sample.post_body [ (Py.lit "text", Py.VStr (Py.lit "hello")) ])
           (Sample.start Sample.two_chats) _
           (mkResponse
              (Py.VDict [ (Py.lit "error", Py.VStr (Py.lit "Missing 'message'")) ])
              400)); reflexivity.
Defined.

(** X10: POST /chat keeps referential integrity: if every stored message
    belongs to a stored chat before the request, so it is after, whatever the
    request and however it ends. *)
Theorem chat_keeps_referential_integrity
  (w : world) (rq : request) (s s' : state) (r : Py.result response) :
  referential_integrity (db s) ->
  chat w rq s = (s', r) ->
  referential_integrity (db s').
Proof.
  intros Hri Hrun.
  destruct (chat_effect w rq s)
    as (resp & s'' & cs & ms & E & Hc & Hm & _ & (cid & Hin & Hr) & _).
  rewrite E in Hrun. injection Hrun as <- _.
  intros m Hmem. rewrite Hm in Hmem. rewrite Hc.
  apply in_app_iff in Hmem as [Hold | Hnew].
  - destruct (Hri m Hold) as (c & Hcin & Hcid).
    exists c. split; [apply in_app_iff; now left | exact Hcid].
  - assert (Hcid : Message.chat_id m = cid).
    { destruct ms as [|m1 [|m2 [|m3 ms]]]; simpl in *; try contradiction.
      - destruct Hnew as [<- | []]. tauto.
      - destruct Hr as (H1 & _ & H2 & _).
        destruct Hnew as [<- | [<- | []]]; assumption. }
    destruct Hin as [-> | Hin]; [contradiction|].
    apply in_map_iff in Hin as (c & Hid & Hcin).
    exists c. split; [exact Hcin | congruence].
Qed.

Lemma chat_keeps_referential_integrity_witness :
  referential_integrity
    (db (fst (chat Sample.primary_up Sample.hey (Sample.start Sample.two_chats)))).
Proof.
  apply (@chat_keeps_referential_integrity Sample.primary_up Sample.hey
           (Sample.start Sample.two_chats) _
           (snd (chat Sample.primary_up Sample.hey (Sample.start Sample.two_chats)))).
  - intros m [<- | [<- | [<- | []]]]; simpl;
      [ exists (Chat.mk 1 (Some (Py.lit "first")) (Sample.at_ 8))
      | exists (Chat.mk 2 (Some (Py.lit "second")) (Sample.at_ 9))
      | exists (Chat.mk 1 (Some (Py.lit "first")) (Sample.at_ 8)) ];
      simpl; auto.
  - reflexivity.
Defined.

(** X11: the providers are consulted only once the user's message is
    stored: a request that adds no message makes no outbound call. *)
Theorem chat_calls_only_after_user_row (w : world) (rq : request) (s : state) :
  exists resp s' evs,
    chat w rq s = (s', Py.Ok resp)
    /\ trace s' = trace s ++ evs
    /\ (messages (db s') = messages (db s) -> filter is_call evs = []).
Proof.
  destruct (chat_effect w rq s)
    as (resp & s' & cs & ms & E & _ & Hm & _ & _ & _ & (evs & Htr & Hcall)).
  exists resp, s', evs. repeat split; auto.
  intros Heq. apply Hcall. rewrite Heq in Hm.
  destruct ms; [reflexivity|].
  apply (f_equal (@List.length _)) in Hm. rewrite length_app in Hm.
  simpl in Hm. lia.
Qed.

(** The run of a request that opens a new conversation with a string
    message: the chat row is committed, then the turn takes place. *)
Lemma chat_new_run
  (w : world) (rq : request) (items : list (Py.str * Py.value))
  (msg : Py.str) (s : state) :
  get_json rq = Py.Ok (Py.VDict items) ->
  Py.lookup (Py.lit "message") items = Some (Py.VStr msg) ->
  starts_new_conversation w items (db s) ->
  chat w rq s =
    match commit_error w (commits s) with
    | Some e => on_error w e (refused_commit s)
    | None =>
        match next_id w (map Chat.id (chats (db s))) with
        | Py.Raise e => on_error w e (no_row_id s)
        | Py.Ok i =>
            try_except
              (turn w (stored_chat w s i (Some (firstn 200 msg))) (Py.VStr msg))
              (on_error w) (after_chat w s i (Some (firstn 200 msg)))
        end
    end.
Proof.
  intros Hj Hm Hn.
  destruct (lookup_new_conversation s Hn) as (cid & Hget & Hfound).
  rewrite chat_unfold, Hj, try_lift_ok. cbv beta zeta.
  rewrite or_dict_object. unfold Py.contains, Py.getitem. rewrite Hm.
  rewrite try_lift_ok. cbn [negb]. rewrite try_lift_ok, Hget, try_lift_ok.
  erewrite try_bind_ok by exact Hfound. cbv beta iota.
  rewrite try_bind_assoc. unfold Py.slice_to. rewrite try_lift_ok.
  rewrite try_add_chat. reflexivity.
Qed.

(** The run of a request that names a stored chat, with a string message. *)
Lemma chat_existing_run
  (w : world) (rq : request) (items : list (Py.str * Py.value))
  (msg : Py.str) (z : Z) (c : Chat.t) (s : state) :
  get_json rq = Py.Ok (Py.VDict items) ->
  Py.lookup (Py.lit "message") items = Some (Py.VStr msg) ->
  Py.lookup (Py.lit "chat_id") items = Some (Py.VInt z) ->
  z <> 0%Z ->
  find_chat z (db s) = Some c ->
  chat w rq s = try_except (turn w c (Py.VStr msg)) (on_error w) s.
Proof.
  intros Hj Hm Hc Hz Hf.
  rewrite chat_unfold, Hj, try_lift_ok. cbv beta zeta.
  rewrite or_dict_object. unfold Py.contains, Py.getitem, Py.get. rewrite Hm, Hc.
  rewrite try_lift_ok. cbn [negb]. rewrite !try_lift_ok.
  apply Z.eqb_neq in Hz. cbn [Py.truthy]. rewrite Hz. cbn [negb].
  rewrite try_query. cbn [resolve]. unfold query_get. rewrite Hf.
  now rewrite try_ret.
Qed.

(** X12: a POST that names a stored chat by an integer id and is answered
    200 adds no chat and appends exactly the user's message and then the
    assistant's reply to that chat; the response carries the same id. *)
Theorem chat_existing_conversation_rows
  (w : world) (rq : request) (items : list (Py.str * Py.value))
  (msg : Py.str) (z : Z) (s s' : state) (resp : response) :
  get_json rq = Py.Ok (Py.VDict items) ->
  Py.lookup (Py.lit "message") items = Some (Py.VStr msg) ->
  Py.lookup (Py.lit "chat_id") items = Some (Py.VInt z) ->
  z <> 0%Z ->
  (exists c, In c (chats (db s)) /\ Chat.id c = z) ->
  chat w rq s = (s', Py.Ok resp) ->
  status resp = 200%Z ->
  chats (db s') = chats (db s)
  /\ exists (m_user m_assistant : Message.t) (reply : Py.str),
       messages (db s') = messages (db s) ++ [m_user; m_assistant]
       /\ Message.chat_id m_user = z
       /\ Message.role m_user = Py.lit "user"
       /\ Message.content m_user = msg
       /\ Message.chat_id m_assistant = z
       /\ Message.role m_assistant = Py.lit "assistant"
       /\ Message.content m_assistant = reply
       /\ resp = jsonify (Py.VDict [ (Py.lit "chat_id", Py.VInt z);
                                     (Py.lit "response", Py.VStr reply) ]).
Proof.
  intros Hj Hm Hc Hz (c0 & Hin & Hid) Hrun Hst.
  destruct (find_chat z (db s)) as [c|] eqn:Hf.
  2:{ rewrite find_chat_none in Hf. now apply Hf in Hin. }
  destruct (find_chat_some _ _ Hf) as [_ Hcid].
  erewrite chat_existing_run, turn_run_str in Hrun by eassumption.
  destruct (commit_error w (commits s)) as [e|];
    [rewrite on_error_run in Hrun; injection Hrun as <- <-; discriminate Hst|].
  destruct (next_id w (map Message.id (messages (db s)))) as [iu|e];
    [|rewrite on_error_run in Hrun; injection Hrun as <- <-; discriminate Hst].
  cbv zeta in Hrun.
  match type of Hrun with context [generate_response w msg ?s0] =>
    destruct (generate_response_returns w msg s0)
      as (reply & s2 & E & (Ldb & _)) end.
  rewrite E in Hrun.
  destruct (commit_error w (commits s2)) as [e|];
    [rewrite on_error_run in Hrun; injection Hrun as <- <-; discriminate Hst|].
  destruct (next_id w (map Message.id (messages (db s2)))) as [ia|e];
    [|rewrite on_error_run in Hrun; injection Hrun as <- <-; discriminate Hst].
  injection Hrun as <- <-. unfold after_message in *. cbn in *.
  rewrite Ldb. cbn. split; [reflexivity|].
  do 3 eexists. rewrite <- app_assoc, Hcid. cbn.
  repeat split; reflexivity.
Qed.

Lemma chat_existing_conversation_witness :
  chats (db (fst (chat Sample.primary_up Sample.hey_again
                       (Sample.start Sample.two_chats))))
    = chats (db (Sample.start Sample.two_chats))
  /\ exists (m_user m_assistant : Message.t) (reply : Py.str),
       messages (db (fst (chat Sample.primary_up Sample.hey_again
                               (Sample.start Sample.two_chats))))
         = messages (db (Sample.start Sample.two_chats)) ++ [m_user; m_assistant]
       /\ Message.chat_id m_user = 2%Z
       /\ Message.role m_user = Py.lit "user"
       /\ Message.content m_user = Py.lit "hey"
       /\ Message.chat_id m_assistant = 2%Z
       /\ Message.role m_assistant = Py.lit "assistant"
       /\ Message.content m_assistant = reply
       /\ jsonify (Py.VDict [ (Py.lit "chat_id", Py.VInt 2);
                              (Py.lit "response", Py.VStr (Py.lit "Hello!")) ])
          = jsonify (Py.VDict [ (Py.lit "chat_id", Py.VInt 2);
                                (Py.lit "response", Py.VStr reply) ]).
Proof.
  apply (@chat_existing_conversation_rows
           Sample.primary_up Sample.hey_again
           [ (Py.lit "message", Py.VStr (Py.lit "hey"));
             (Py.lit "chat_id", Py.VInt 2) ]
           (Py.lit "hey") 2 (Sample.start Sample.two_chats)
           (fst (chat Sample.primary_up Sample.hey_again
                      (Sample.start Sample.two_chats)))
           (jsonify (Py.VDict [ (Py.lit "chat_id", Py.VInt 2);
                                (Py.lit "response", Py.VStr (Py.lit "Hello!")) ])));
    try reflexivity.
  - discriminate.
  - exists (Chat.mk 2 (Some (Py.lit "second")) (Sample.at_ 9)).
    split; [right; left; reflexivity | reflexivity].
Defined.

(** X13: no rollback.  In tables that have not reached their largest row
    id, when the chat and the user's message are committed and the commit of
    the assistant's reply fails, the answer is 500 with the failure as
    details, and the new chat stays stored with the user's message alone. *)
Theorem chat_reply_commit_failure_leaves_user_turn
  (w : world) (rq : request) (items : list (Py.str * Py.value))
  (msg : Py.str) (s : state) (e : Py.exn) :
  get_json rq = Py.Ok (Py.VDict items) ->
  Py.lookup (Py.lit "message") items = Some (Py.VStr msg) ->
  starts_new_conversation w items (db s) ->
  has_room (map Chat.id (chats (db s))) ->
  has_room (map Message.id (messages (db s))) ->
  commit_error w (commits s) = None ->
  commit_error w (S (commits s)) = None ->
  commit_error w (S (S (commits s))) = Some e ->
  exists s' c m_user,
    chat w rq s =
      (s', Py.Ok (mkResponse
                    (Py.VDict [ (Py.lit "error", Py.VStr (Py.lit "Internal server error"));
                                (Py.lit "details", Py.VStr (str_exn w e)) ])
                    500))
    /\ chats (db s') = chats (db s) ++ [c]
    /\ Chat.title c = Some (firstn 200 msg)
    /\ messages (db s') = messages (db s) ++ [m_user]
    /\ Message.chat_id m_user = Chat.id c
    /\ Message.role m_user = Py.lit "user"
    /\ Message.content m_user = msg.
Proof.
  intros Hj Hm Hn Rc Rm H1 H2 H3.
  erewrite chat_new_run by eassumption.
  rewrite H1, (next_id_room w Rc), turn_run_str.
  unfold after_chat. cbn [commits db messages chats]. rewrite H2.
  rewrite (next_id_room w Rm). cbv zeta.
  match goal with |- context [generate_response w msg ?s0] =>
    destruct (generate_response_returns w msg s0)
      as (reply & s2 & E & (Ldb & Lc & _)) end.
  rewrite E. unfold after_message, after_chat in Lc, Ldb. cbn in Lc, Ldb.
  rewrite Lc, H3, on_error_run.
  do 3 eexists. split; [reflexivity|].
  unfold add_events, refused_commit. cbn. rewrite Ldb. cbn.
  repeat split; reflexivity.
Qed.

Lemma two_chats_room :
  has_room (map Chat.id (chats Sample.two_chats))
  /\ has_room (map Message.id (messages Sample.two_chats)).
Proof.
  split; intros i Hi; simpl in Hi; unfold INT64_MAX; intuition lia.
Qed.

Lemma chat_reply_commit_failure_witness :
  exists s' c m_user,
    chat Sample.third_commit_fails Sample.hey (Sample.start Sample.two_chats) =
      (s', Py.Ok (mkResponse
                    (Py.VDict [ (Py.lit "error", Py.VStr (Py.lit "Internal server error"));
                                (Py.lit "details", Py.VStr (Py.lit "disk full")) ])
                    500))
    /\ chats (db s') = chats Sample.two_chats ++ [c]
    /\ Chat.title c = Some (firstn 200 (Py.lit "hey"))
    /\ messages (db s') = messages Sample.two_chats ++ [m_user]
    /\ Message.chat_id m_user = Chat.id c
    /\ Message.role m_user = Py.lit "user"
    /\ Message.content m_user = Py.lit "hey".
Proof.
  apply (@chat_reply_commit_failure_leaves_user_turn
           Sample.third_commit_fails Sample.hey
           [ (Py.lit "message", Py.VStr (Py.lit "hey")) ] (Py.lit "hey")
           (Sample.start Sample.two_chats)
           (Py.LibraryError (Py.lit "disk full"))); try reflexivity.
  - apply chat_id_absent. reflexivity.
  - exact (proj1 two_chats_room).
  - exact (proj2 two_chats_room).
Defined.

(** X14: in a chat table that has not reached its largest row id, when the
    chat is committed and the commit of the user's message fails, the answer
    is 500, the new chat stays stored without any message, and no provider
    has been called. *)
Theorem chat_message_commit_failure_leaves_empty_chat
  (w : world) (rq : request) (items : list (Py.str * Py.value))
  (msg : Py.str) (s : state) (e : Py.exn) :
  get_json rq = Py.Ok (Py.VDict items) ->
  Py.lookup (Py.lit "message") items = Some (Py.VStr msg) ->
  starts_new_conversation w items (db s) ->
  has_room (map Chat.id (chats (db s))) ->
  commit_error w (commits s) = None ->
  commit_error w (S (commits s)) = Some e ->
  exists s' c,
    chat w rq s =
      (s', Py.Ok (mkResponse
                    (Py.VDict [ (Py.lit "error", Py.VStr (Py.lit "Internal server error"));
                                (Py.lit "details", Py.VStr (str_exn w e)) ])
                    500))
    /\ chats (db s') = chats (db s) ++ [c]
    /\ Chat.title c = Some (firstn 200 msg)
    /\ messages (db s') = messages (db s)
    /\ trace s' = trace s ++ [LogException "Chat error" e].
Proof.
  intros Hj Hm Hn Rc H1 H2.
  erewrite chat_new_run by eassumption.
  rewrite H1, (next_id_room w Rc), turn_run_str.
  unfold after_chat at 1. cbn [commits]. rewrite H2, on_error_run.
  do 2 eexists. split; [reflexivity|].
  repeat split; reflexivity.
Qed.

Lemma chat_message_commit_failure_witness :
  exists s' c,
    chat Sample.second_commit_fails Sample.hey (Sample.start Sample.two_chats) =
      (s', Py.Ok (mkResponse
                    (Py.VDict [ (Py.lit "error", Py.VStr (Py.lit "Internal server error"));
                                (Py.lit "details", Py.VStr (Py.lit "disk full")) ])
                    500))
    /\ chats (db s') = chats Sample.two_chats ++ [c]
    /\ Chat.title c = Some (firstn 200 (Py.lit "hey"))
    /\ messages (db s') = messages Sample.two_chats
    /\ trace s' = [LogException "Chat error" (Py.LibraryError (Py.lit "disk full"))].
Proof.
  apply (@chat_message_commit_failure_leaves_empty_chat
           Sample.second_commit_fails Sample.hey
           [ (Py.lit "message", Py.VStr (Py.lit "hey")) ] (Py.lit "hey")
           (Sample.start Sample.two_chats)
           (Py.LibraryError (Py.lit "disk full"))); try reflexivity.
  - apply chat_id_absent. reflexivity.
  - exact (proj1 two_chats_room).
Defined.

Lemma find_chat_appended (st : store) (c : Chat.t) (ms : list Message.t) (i : Z) :
  Chat.id c = i ->
  ~ In i (map Chat.id (chats st)) ->
  find_chat i (mkStore (chats st ++ [c]) ms) = Some c.
Proof.
  unfold find_chat. simpl. intros <- Hfresh.
  induction (chats st) as [|c0 l IH]; simpl.
  - now rewrite Z.eqb_refl.
  - destruct (Z.eqb_spec (Chat.id c0) (Chat.id c)) as [E|_].
    + exfalso. apply Hfresh. simpl. now left.
    + apply IH. intros H. apply Hfresh. simpl. now right.
Qed.

Lemma no_message_of_fresh_chat (st : store) (k : Z) :
  referential_integrity st ->
  ~ In k (map Chat.id (chats st)) ->
  filter (fun m => (Message.chat_id m =? k)%Z) (messages st) = [].
Proof.
  intros Hri Hfresh.
  assert (H : forall m, In m (messages st) -> (Message.chat_id m =? k)%Z = false).
  { intros m Hm. destruct (Hri m Hm) as (c & Hc & Hid).
    apply Z.eqb_neq. intros E. apply Hfresh. rewrite <- E, <- Hid.
    now apply in_map. }
  induction (messages st) as [|m l IH]; simpl; [reflexivity|].
  rewrite (H m (or_introl eq_refl)). apply IH. intros m' Hm'. apply H. now right.
Qed.

(** X15: round trip.  In a store where every message belongs to a chat and
    with a clock that does not go backwards, after a POST that opens a new
    conversation and is answered 200, GET /chats/id for the id the response
    carries answers 200 with exactly the two messages of the turn, the
    user's first. *)
Theorem chat_then_get_chat_round_trip
  (w : world) (rq : request) (items : list (Py.str * Py.value))
  (msg : Py.str) (s s' : state) (resp : response) :
  get_json rq = Py.Ok (Py.VDict items) ->
  Py.lookup (Py.lit "message") items = Some (Py.VStr msg) ->
  starts_new_conversation w items (db s) ->
  referential_integrity (db s) ->
  (forall n, Datetime.leb (utcnow w n) (utcnow w (S n)) = true) ->
  chat w rq s = (s', Py.Ok resp) ->
  status resp = 200%Z ->
  exists (cid : Z) (reply : Py.str) (m_user m_assistant : Message.t),
    resp = jsonify (Py.VDict [ (Py.lit "chat_id", Py.VInt cid);
                               (Py.lit "response", Py.VStr reply) ])
    /\ get_chat cid (db s') =
         Py.Ok
           (jsonify (Py.VDict [ (Py.lit "messages",
                                Py.VList [ Message.to_dict m_user;
                                           Message.to_dict m_assistant ]) ]))
    /\ Message.role m_user = Py.lit "user"
    /\ Message.content m_user = msg
    /\ Message.role m_assistant = Py.lit "assistant"
    /\ Message.content m_assistant = reply.
Proof.
  intros Hj Hm Hn Hri Hclock Hrun Hst.
  erewrite chat_new_run in Hrun by eassumption.
  destruct (commit_error w (commits s)) as [e|];
    [rewrite on_error_run in Hrun; injection Hrun as <- <-; discriminate Hst|].
  destruct (next_id w (map Chat.id (chats (db s)))) as [i|e] eqn:Hi;
    [|rewrite on_error_run in Hrun; injection Hrun as <- <-; discriminate Hst].
  rewrite turn_run_str in Hrun.
  destruct (commit_error w (commits (after_chat w s i (Some (firstn 200 msg)))))
    as [e|];
    [rewrite on_error_run in Hrun; injection Hrun as <- <-; discriminate Hst|].
  destruct (next_id w (map Message.id
                         (messages (db (after_chat w s i (Some (firstn 200 msg)))))))
    as [iu|e];
    [|rewrite on_error_run in Hrun; injection Hrun as <- <-; discriminate Hst].
  cbv zeta in Hrun.
  match type of Hrun with context [generate_response w msg ?s0] =>
    destruct (generate_response_returns w msg s0)
      as (reply & s2 & E & (Ldb & _ & Lt & _)) end.
  rewrite E in Hrun.
  destruct (commit_error w (commits s2)) as [e|];
    [rewrite on_error_run in Hrun; injection Hrun as <- <-; discriminate Hst|].
  destruct (next_id w (map Message.id (messages (db s2)))) as [ia|e];
    [|rewrite on_error_run in Hrun; injection Hrun as <- <-; discriminate Hst].
  injection Hrun as <- <-. clear Hst.
  unfold after_message, after_chat, stored_message, stored_chat in *.
  cbn in Ldb, Lt.
  pose proof (next_id_fresh _ _ Hi) as Hfresh.
  eexists. exists reply. eexists. eexists.
  split; [reflexivity|].
  unfold get_chat, query_get. cbn [db chats messages Chat.id]. rewrite Ldb.
  cbn [chats messages].
  erewrite find_chat_appended; [| reflexivity | exact Hfresh].
  cbn [bind ret Monad_result].
  unfold messages_of. cbn [chats messages Chat.id].
  rewrite <- app_assoc, filter_app.
  rewrite (@no_message_of_fresh_chat (db s) _ Hri Hfresh).
  cbn [app filter Message.chat_id].
  rewrite Z.eqb_refl.
  cbn [order_by fold_right insert_by Message.created_at Datetime.opt_leb].
  rewrite Lt, Hclock.
  repeat split; reflexivity.
Qed.

Lemma sample_clock_monotone (n : nat) :
  Datetime.leb (utcnow Sample.primary_up n) (utcnow Sample.primary_up (S n)) = true.
Proof.
  change (Datetime.lex_leb [2025; 1; 1; 0; 0; N.of_nat n; 0]%N
                           [2025; 1; 1; 0; 0; N.of_nat (S n); 0]%N = true).
  unfold Datetime.lex_leb. rewrite !N.ltb_irrefl, !N.eqb_refl.
  assert (H : (N.of_nat n <? N.of_nat (S n))%N = true) by (apply N.ltb_lt; lia).
  now rewrite H.
Qed.

Lemma chat_then_get_chat_witness :
  exists (cid : Z) (reply : Py.str) (m_user m_assistant : Message.t),
    jsonify (Py.VDict [ (Py.lit "chat_id", Py.VInt 3);
                        (Py.lit "response", Py.VStr (Py.lit "Hello!")) ])
      = jsonify (Py.VDict [ (Py.lit "chat_id", Py.VInt cid);
                            (Py.lit "response", Py.VStr reply) ])
    /\ get_chat cid
         (db (fst (chat Sample.primary_up Sample.hey (Sample.start Sample.two_chats))))
       = Py.Ok
           (jsonify (Py.VDict [ (Py.lit "messages",
                                Py.VList [ Message.to_dict m_user;
                                           Message.to_dict m_assistant ]) ]))
    /\ Message.role m_user = Py.lit "user"
    /\ Message.content m_user = Py.lit "hey"
    /\ Message.role m_assistant = Py.lit "assistant"
    /\ Message.content m_assistant = reply.
Proof.
  apply (@chat_then_get_chat_round_trip
           Sample.primary_up Sample.hey
           [ (Py.lit "message", Py.VStr (Py.lit "hey")) ] (Py.lit "hey")
           (Sample.start Sample.two_chats)
           (fst (chat Sample.primary_up Sample.hey (Sample.start Sample.two_chats))));
    try reflexivity.
  - apply chat_id_absent. reflexivity.
  - intros m [<- | [<- | [<- | []]]]; simpl;
      [ exists (Chat.mk 1 (Some (Py.lit "first")) (Sample.at_ 8))
      | exists (Chat.mk 2 (Some (Py.lit "second")) (Sample.at_ 9))
      | exists (Chat.mk 1 (Some (Py.lit "first")) (Sample.at_ 8)) ];
      simpl; auto.
  - exact sample_clock_monotone.
Defined.

Lemma infixb_nonempty (p s : Py.str) :
  p <> [] -> Py.infixb p s = true -> s <> [].
Proof. intros Hp H ->. destruct p; [contradiction | discriminate H]. Qed.

(** X16: a body the handler cannot read a message from (invalid JSON, a
    number, [true], a string that has "message" inside, a list holding the
    string "message") is answered 500, not 400; nothing is stored and the
    only trace is the logged exception. *)
Theorem chat_unusable_body_500
  (w : world) (rq : request) (e : Py.exn) (s : state) :
  unusable_body rq e ->
  chat w rq s =
    (add_events s [LogException "Chat error" e],
     Py.Ok (mkResponse
              (Py.VDict [ (Py.lit "error", Py.VStr (Py.lit "Internal server error"));
                          (Py.lit "details", Py.VStr (str_exn w e)) ])
              500)).
Proof.
  intros H. rewrite chat_unfold.
  destruct H as [e Hj | z Hj Hz | Hj | t Hj Hin | l Hj Hin]; rewrite Hj.
  - now rewrite try_lift_raise.
  - rewrite try_lift_ok. cbv beta zeta. unfold Py.or_. cbn [Py.truthy].
    apply Z.eqb_neq in Hz. rewrite Hz. cbn [negb Py.contains].
    now rewrite try_lift_raise.
  - rewrite try_lift_ok. cbv beta zeta. unfold Py.or_. cbn [Py.truthy Py.contains].
    now rewrite try_lift_raise.
  - rewrite try_lift_ok. cbv beta zeta.
    assert (Ht : t <> []) by (eapply infixb_nonempty; [|exact Hin]; discriminate).
    destruct t as [|c t]; [contradiction|].
    unfold Py.or_. cbn [Py.truthy negb Py.contains]. rewrite Hin.
    rewrite try_lift_ok. cbn [negb Py.getitem]. now rewrite try_lift_raise.
  - rewrite try_lift_ok. cbv beta zeta.
    destruct l as [|x l]; [contradiction|].
    unfold Py.or_. cbn [Py.truthy negb Py.contains].
    assert (Hex : existsb (fun x0 => match x0 with
                                     | Py.VStr s0 => Py.str_eqb (Py.lit "message") s0
                                     | _ => false
                                     end) (x :: l) = true).
    { apply existsb_exists. exists (Py.VStr (Py.lit "message")).
      split; [exact Hin | apply str_eqb_refl]. }
    rewrite Hex. rewrite try_lift_ok. cbn [negb Py.getitem].
    now rewrite try_lift_raise.
Qed.

Lemma chat_unusable_body_witness :
  chat Sample.primary_up (mkRequest (Py.Ok (Py.VStr (Py.lit "my message"))))
       (Sample.start Sample.two_chats) =
    (add_events (Sample.start Sample.two_chats)
                [LogException "Chat error" Py.TypeError],
     Py.Ok (mkResponse
              (Py.VDict [ (Py.lit "error", Py.VStr (Py.lit "Internal server error"));
                          (Py.lit "details", Py.VStr (Py.lit "error")) ])
              500)).
Proof.
  apply (@chat_unusable_body_500 Sample.primary_up
           (mkRequest (Py.Ok (Py.VStr (Py.lit "my message")))) Py.TypeError
           (Sample.start Sample.two_chats)).
  apply body_text with (t := Py.lit "my message"); reflexivity.
Defined.

(* ================================================================== *)
(** * Further properties of the read routes and of the prompt *)
(* ================================================================== *)

(** X17: a stored chat without messages is answered 200 with the empty
    list, not 404. *)
Theorem get_chat_without_messages (chat_id : Z) (s : store) :
  (exists c, In c (chats s) /\ Chat.id c = chat_id) ->
  (forall m, In m (messages s) -> Message.chat_id m <> chat_id) ->
  get_chat chat_id s =
    Py.Ok (mkResponse (Py.VDict [ (Py.lit "messages", Py.VList []) ]) 200).
Proof.
  intros (c0 & Hin & Hid) Hnone. unfold get_chat.
  destruct (@query_get_found chat_id s c0 Hin Hid) as (c & E & _ & Hc).
  rewrite E. cbn [bind ret Monad_result].
  unfold messages_of. rewrite Hc.
  assert (F : filter (fun m => (Message.chat_id m =? chat_id)%Z) (messages s) = []).
  { induction (messages s) as [|m l IH]; simpl; [reflexivity|].
    destruct (Z.eqb_spec (Message.chat_id m) chat_id) as [Heq|_].
    - exfalso. apply (Hnone m); [now left | exact Heq].
    - apply IH. intros m' Hm'. apply Hnone. now right. }
  now rewrite F.
Qed.

Lemma get_chat_without_messages_witness :
  get_chat 5 Sample.lonely_chat =
    Py.Ok (mkResponse (Py.VDict [ (Py.lit "messages", Py.VList []) ]) 200).
Proof.
  apply get_chat_without_messages.
  - exists (Chat.mk 5 None None). split; [left; reflexivity | reflexivity].
  - intros m [<- | []]. simpl. lia.
Defined.

(** X18: the prompt determines the message: two messages with the same
    prompt are the same message. *)
Theorem build_prompt_injective (a b : Py.str) :
  build_prompt a = build_prompt b -> a = b.
Proof.
  unfold build_prompt. intros H.
  apply app_inv_head in H. now apply app_inv_head in H.
Qed.

Lemma build_prompt_injective_witness : Py.lit "hi" = Py.lit "hi".
Proof. apply build_prompt_injective. reflexivity. Defined.
